(** * Anthropic -> Ollama proxy: a shallow embedding of
      [ollama-proxy/anthro_to_openai_proxy.py] and the properties of its
      translation core.

    The module is dynamically typed Python over parsed JSON, so the
    embedding works on a type [value] of JSON-shaped Python objects and on
    a [result] type whose [Raise] constructor stands for an exception that
    propagates.  The HTTP collaborators (the inbound [Request], the
    [httpx] client, [uuid.uuid4]) are events of a small program type
    [prog], interpreted against a [world].  A [str] is kept as the string
    of its UTF-8 bytes. *)

From Stdlib Require Import ZArith SpecFloat Ascii String.
From stdpp Require Import gmap strings list fin_maps pretty.

Set Warnings "-register-all".

(** ** Python objects *)

(** What [json.loads] produces: [None], [bool], [int], [float], [str],
    [list] and [dict] with [str] keys.  A float is an IEEE-754 binary64
    datum, kept as the Standard Library's [spec_float]. *)
Inductive value : Type :=
| VNone
| VBool (b : bool)
| VInt (n : Z)
| VFloat (f : spec_float)
| VStr (s : string)
| VList (l : list value)
| VDict (d : gmap string value).

(** The exceptions the module's own expressions can raise. *)
Inductive exn : Type :=
| AttributeError
| TypeError
| IndexError
| KeyError.

Inductive result (A : Type) : Type :=
| Ok (a : A)
| Raise (e : exn).
Arguments Ok {A} a.
Arguments Raise {A} e.

#[global] Instance result_ret : MRet result := fun _ a => Ok a.
#[global] Instance result_bind : MBind result := fun _ _ f r =>
  match r with
  | Ok a => f a
  | Raise e => Raise e
  end.

(** A dict display [{k1: v1, ...}] with distinct keys. *)
Definition dict (items : list (string * value)) : value :=
  VDict (list_to_map items).
Arguments dict : simpl never.

(** The float literal [0.7], that is [0x1.6666666666666p-1]. *)
Definition float_0_7 : spec_float := S754_finite false 6305039478318694 (-53).

(** The one-character string ["\n"]. *)
Definition NL : string := String "010"%char EmptyString.

(** ** Builtins *)

(** [d.get(key, default)] on a [dict]. *)
Definition dict_get {A} (d : gmap string A) (key : string) (dflt : A) : A :=
  default dflt (d !! key).

(** [obj.get(key, default)] on any object: only a [dict] has the
    attribute [get]. *)
Definition py_get (obj : value) (key : string) (dflt : value) : result value :=
  match obj with
  | VDict d => Ok (dict_get d key dflt)
  | _ => Raise AttributeError
  end.

(** [obj == s] for a [str] literal [s]. *)
Definition eq_str (obj : value) (s : string) : bool :=
  match obj with
  | VStr t => bool_decide (t = s)
  | _ => false
  end.

(** Truth value testing, as [if obj:] does it. *)
Definition truthy (obj : value) : bool :=
  match obj with
  | VNone => false
  | VBool b => b
  | VInt n => negb (n =? 0)%Z
  | VFloat (S754_zero _) => false
  | VFloat _ => true
  | VStr s => negb (bool_decide (s = ""))
  | VList l => negb (bool_decide (length l = 0))
  | VDict d => negb (bool_decide (size d = 0))
  end.

Definition chars (s : string) : list value :=
  (fun c => VStr (String c EmptyString)) <$> list_ascii_of_string s.

(** [for x in obj]: the items the loop visits.  A [dict] yields its keys;
    they are all [str], and their order is immaterial to [m.get], which
    fails on the first one. *)
Definition py_iter (obj : value) : result (list value) :=
  match obj with
  | VList l => Ok l
  | VStr s => Ok (chars s)
  | VDict d => Ok ((VStr ∘ fst) <$> map_to_list d)
  | _ => Raise TypeError
  end.

(** [obj[0]]. *)
Definition py_index0 (obj : value) : result value :=
  match obj with
  | VList [] => Raise IndexError
  | VList (x :: _) => Ok x
  | VStr EmptyString => Raise IndexError
  | VStr (String c _) => Ok (VStr (String c EmptyString))
  | VDict _ => Raise KeyError
  | _ => Raise TypeError
  end.

(** The items of a list as strings; [str.join] refuses anything else. *)
Fixpoint as_strs (items : list value) : result (list string) :=
  match items with
  | [] => Ok []
  | VStr s :: rest => ss ← as_strs rest; Ok (s :: ss)
  | _ :: _ => Raise TypeError
  end.

(** [sep.join(items)]. *)
Definition str_join (sep : string) (items : list value) : result string :=
  ss ← as_strs items; Ok (String.concat sep ss).

(** A [for] loop whose body may raise, threading the loop's state. *)
Fixpoint for_each {A S} (body : S → A → result S) (items : list A) (s : S)
  : result S :=
  match items with
  | [] => Ok s
  | x :: rest => s' ← body s x; for_each body rest s'
  end.

(** ** Configuration *)

Definition DEFAULT_MODEL_MAP : gmap string string :=
  list_to_map [
    ("claude-sonnet-4-5-20250514", "claude-sonet-4-5:latest");
    ("claude-opus-4-5-20251101", "claude-opus-4-5:latest");
    ("claude-haiku-4-5-20250514", "claude-haiku-4-5:latest");
    ("claude-sonnet-4-5", "claude-sonet-4-5:latest");
    ("claude-opus-4-5", "claude-opus-4-5:latest");
    ("claude-haiku-4-5", "claude-haiku-4-5:latest");
    ("claude-3-5-sonnet-latest", "claude-sonet-4-5:latest");
    ("claude-3-5-haiku-latest", "claude-haiku-4-5:latest");
    ("claude-3-opus-latest", "claude-opus-4-5:latest")
  ].

(** ** Helpers *)

(** [map_model(anthropic_model: str) -> str]. *)
Definition map_model (anthropic_model : string) : string :=
  dict_get DEFAULT_MODEL_MAP anthropic_model anthropic_model.

(** [map_model] as [handle_messages] calls it, on whatever object the body
    carries under ["model"]: [dict.get] hashes its key, so a [list] or a
    [dict] raises; any other non-[str] key is not in the table and comes
    back unchanged. *)
Definition map_model_obj (model : value) : result value :=
  match model with
  | VStr s => Ok (VStr (map_model s))
  | VList _ | VDict _ => Raise TypeError
  | _ => Ok model
  end.

Section Helpers.

(** The builtin [str(obj)]; the module applies it to content that is
    neither [None], a [str] nor a [list]. *)
Variable py_str : value → string.

(** One turn of the loop over [content]: what is appended to [texts]. *)
Definition extract_item (texts : list value) (item : value) : list value :=
  match item with
  | VStr _ => texts ++ [item]
  | VDict d =>
      if eq_str (dict_get d "type" VNone) "text" then
        texts ++ [dict_get d "text" (VStr "")]
      else
        match d !! "text" with
        | Some t => texts ++ [t]
        | None => texts
        end
  | _ => texts
  end.

Definition extract_text_from_content (content : value) : result string :=
  match content with
  | VNone => Ok ""
  | VStr s => Ok s
  | VList items => str_join NL (foldl extract_item [] items)
  | _ => Ok (py_str content)
  end.

(** The loop body of [anthropic_messages_to_openai]. *)
Definition convert_message (out : list value) (m : value) : result (list value) :=
  role ← py_get m "role" (VStr "user");
  raw ← py_get m "content" (VStr "");
  content ← extract_text_from_content raw;
  Ok (out ++ [dict [("role", role); ("content", VStr content)]]).

Definition anthropic_messages_to_openai (messages system : value)
  : result (list value) :=
  let out := [] in
  let out :=
    if truthy system
    then out ++ [dict [("role", VStr "system"); ("content", system)]]
    else out in
  items ← py_iter messages;
  for_each convert_message items out.

End Helpers.

(** ** Collaborators of the endpoint *)

(** The [httpx.Response] the backend call returns: its status code, its
    body as text, and what [resp.json()] does with that body (the decoded
    object, or [inl] of the decoding exception's [str]). *)
Module httpx.

Record Response : Type := {
  status_code : Z;
  text : string;
  json : string + value;
}.

(** [Response.is_success]. *)
Definition is_success (resp : Response) : bool :=
  bool_decide (200 ≤ status_code resp ≤ 299)%Z.

End httpx.

(** One [client.post(url, json=..., headers=...)]. *)
Record call : Type := {
  call_url : string;
  call_json : value;
  call_headers : gmap string string;
}.

(** How a [client.post] ends: with an exception of the transport (its
    [str] is kept), or with a response. *)
Inductive post_outcome : Type :=
| PostRaised (str_e : string)
| PostReturned (resp : httpx.Response).

(** What the endpoint hands back to the framework: a [dict], or the tuple
    [(dict, status)]. *)
Inductive reply : Type :=
| Body (content : value)
| BodyStatus (content : value) (status : Z).

(** Programs over the collaborators: awaiting the inbound body, posting to
    the backend, drawing a UUID.  [Uncaught] is an exception leaving the
    endpoint. *)
Inductive prog (A : Type) : Type :=
| Return (a : A)
| Uncaught (e : exn)
| RequestJson (k : string + value → prog A)
| ClientPost (c : call) (k : post_outcome → prog A)
| Uuid4Hex (k : string → prog A).
Arguments Return {A} a.
Arguments Uncaught {A} e.
Arguments RequestJson {A} k.
Arguments ClientPost {A} c k.
Arguments Uuid4Hex {A} k.

Fixpoint prog_bind {A B} (f : A → prog B) (p : prog A) : prog B :=
  match p with
  | Return a => f a
  | Uncaught e => Uncaught e
  | RequestJson k => RequestJson (fun r => prog_bind f (k r))
  | ClientPost c k => ClientPost c (fun o => prog_bind f (k o))
  | Uuid4Hex k => Uuid4Hex (fun h => prog_bind f (k h))
  end.

#[global] Instance prog_ret : MRet prog := fun _ a => Return a.
#[global] Instance prog_mbind : MBind prog := fun _ _ f p => prog_bind f p.

(** A pure computation inside a program. *)
Definition lift {A} (r : result A) : prog A :=
  match r with
  | Ok a => Return a
  | Raise e => Uncaught e
  end.

Definition request_json : prog (string + value) := RequestJson Return.
Definition client_post (c : call) : prog post_outcome := ClientPost c Return.
Definition uuid4_hex : prog string := Uuid4Hex Return.

(** The world an inbound request meets: what [request.json()] gives ([inl]
    of the exception's [str] when it raises), how the backend answers the
    [n]-th post, and the 32 hexadecimal digits of the next UUID. *)
Record world : Type := {
  w_request_json : string + value;
  w_client_post : nat → call → post_outcome;
  w_uuid4_hex : string;
}.

(** Running a program in a world, after the posts in [posts] (latest
    first) were made: what the endpoint does, and the posts made. *)
Fixpoint run_from {A} (w : world) (posts : list call) (p : prog A)
  : result A * list call :=
  match p with
  | Return a => (Ok a, rev posts)
  | Uncaught e => (Raise e, rev posts)
  | RequestJson k => run_from w posts (k (w_request_json w))
  | ClientPost c k =>
      run_from w (c :: posts) (k (w_client_post w (length posts) c))
  | Uuid4Hex k => run_from w posts (k (w_uuid4_hex w))
  end.

Definition run {A} (w : world) (p : prog A) : result A * list call :=
  run_from w [] p.

(** ** The endpoint [/v1/messages] *)

Section Endpoint.

(** The builtin [str], as in the helpers. *)
Variable py_str : value → string.

(** [OLLAMA_BASE_URL] and [OLLAMA_API_KEY], read from the process
    environment when the module is loaded. *)
Variable OLLAMA_BASE_URL : string.
Variable OLLAMA_API_KEY : string.

(** Lines 112-130: the fields of the body, the mapped model, the converted
    messages and the payload.  Gives the requested [model] back with the
    payload, as the response echoes it. *)
Definition translate_request (body : value) : result (value * value) :=
  model ← py_get body "model" (VStr "claude-haiku-4-5");
  messages ← py_get body "messages" (VList []);
  system ← py_get body "system" VNone;
  max_tokens ← py_get body "max_tokens" (VInt 4096);
  temperature ← py_get body "temperature" (VFloat float_0_7);
  stream ← py_get body "stream" (VBool false);
  target_model ← map_model_obj model;
  openai_messages ← anthropic_messages_to_openai py_str messages system;
  let payload := dict [
    ("model", target_model);
    ("messages", VList openai_messages);
    ("max_tokens", max_tokens);
    ("temperature", temperature);
    ("stream", VBool false)
  ] in
  Ok (model, payload).

Definition headers : gmap string string :=
  list_to_map [
    ("Authorization", "Bearer " +:+ OLLAMA_API_KEY);
    ("Content-Type", "application/json")
  ].

(** The one call to the backend, lines 139-143. *)
Definition completion_call (payload : value) : call := {|
  call_url := OLLAMA_BASE_URL +:+ "/chat/completions";
  call_json := payload;
  call_headers := headers;
|}.

(** How the [try] block around the backend call ends. *)
Inductive attempt : Type :=
| Data (data : value)
| HTTPStatusError (response : httpx.Response)
| OtherException (str_e : string).

(** The statements after [client.post] inside the [try] block:
    [resp.raise_for_status()], which raises [HTTPStatusError] unless the
    status is a success, then [resp.json()]. *)
Definition after_post (o : post_outcome) : attempt :=
  match o with
  | PostRaised str_e => OtherException str_e
  | PostReturned resp =>
      if httpx.is_success resp then
        match httpx.json resp with
        | inr data => Data data
        | inl str_e => OtherException str_e
        end
      else HTTPStatusError resp
  end.

Definition error_envelope (type message : string) : value :=
  dict [
    ("type", VStr "error");
    ("error", dict [("type", VStr type); ("message", VStr message)])
  ].

(** Line 158. *)
Definition response_text (data : value) : result value :=
  choices ← py_get data "choices" (VList [dict []]);
  first ← py_index0 choices;
  message ← py_get first "message" (dict []);
  py_get message "content" (VStr "").

(** [data.get("usage", {}).get(field, 0)]. *)
Definition usage_field (data : value) (field : string) : result value :=
  usage ← py_get data "usage" (dict []);
  py_get usage field (VInt 0).

(** Lines 162-174. *)
Definition message_response (model text : value) (message_id : string)
    (data : value) : result value :=
  input_tokens ← usage_field data "prompt_tokens";
  output_tokens ← usage_field data "completion_tokens";
  Ok (dict [
    ("id", VStr message_id);
    ("type", VStr "message");
    ("role", VStr "assistant");
    ("model", model);
    ("content", VList [dict [("type", VStr "text"); ("text", text)]]);
    ("stop_reason", VStr "end_turn");
    ("stop_sequence", VNone);
    ("usage", dict [
      ("input_tokens", input_tokens);
      ("output_tokens", output_tokens)
    ])
  ]).

(** Lines 157-174, with the UUID drawn between the two. *)
Definition translate_response (model data : value) : prog reply :=
  text ← lift (response_text data);
  hex ← uuid4_hex;
  let message_id := "msg_" +:+ String.substring 0 24 hex in
  content ← lift (message_response model text message_id data);
  Return (Body content).

(** What [translate_response] comes to once the UUID [hex] is drawn. *)
Definition translate_response_with (hex : string) (model data : value)
  : result reply :=
  text ← response_text data;
  content ← message_response model text
              ("msg_" +:+ String.substring 0 24 hex) data;
  Ok (Body content).

Definition handle_messages : prog reply :=
  parsed ← request_json;
  match parsed with
  | inl str_e =>
      Return (BodyStatus
        (dict [("error", dict [
          ("type", VStr "invalid_request_error");
          ("message", VStr ("Invalid JSON: " +:+ str_e))
        ])])
        400)
  | inr body =>
      '(model, payload) ← lift (translate_request body);
      outcome ← client_post (completion_call payload);
      match after_post outcome with
      | HTTPStatusError response =>
          Return (Body (error_envelope "api_error"
            ("Ollama error: " +:+ pretty (httpx.status_code response)
               +:+ " - " +:+ httpx.text response)))
      | OtherException str_e =>
          Return (Body (error_envelope "api_error"
            ("Connection error: " +:+ str_e)))
      | Data data => translate_response model data
      end
  end.

End Endpoint.

(** ** The spec's reading of a content block *)

(** These follow the specification's data model rather than the code: a
    block is an object with an optional ["type"] discriminator and an
    optional ["text"] field holding a string. *)

(** The optional ["text"] field of a block is a string when present. *)
Definition text_is_str (block : gmap string value) : bool :=
  match block !! "text" with
  | Some (VStr _) | None => true
  | Some _ => false
  end.

Definition has_text_discriminator (block : gmap string value) : bool :=
  match block !! "type" with
  | Some (VStr t) => bool_decide (t = "text")
  | _ => false
  end.

Definition text_field (block : gmap string value) : option string :=
  match block !! "text" with
  | Some (VStr s) => Some s
  | _ => None
  end.

(** What a block contributes to the flattened text: with the ["text"]
    discriminator its text field, empty if absent; without it, its text
    field if it carries one; nothing otherwise. *)
Definition block_text (block : gmap string value) : option string :=
  if has_text_discriminator block
  then Some (default "" (text_field block))
  else text_field block.

(** The message the translator prepends for a system prompt. *)
Definition system_message (system : option string) : list value :=
  match system with
  | Some s =>
      if bool_decide (s = "") then []
      else [dict [("role", VStr "system"); ("content", VStr s)]]
  | None => []
  end.

(** The target message for a source message with the given role and
    normalized content. *)
Definition target_message (role : value) (content : string) : value :=
  dict [("role", role); ("content", VStr content)].

(** [sub] occurs verbatim in [s]. *)
Definition includes (sub s : string) : Prop :=
  ∃ before after, s = before +:+ sub +:+ after.

(** The field [key] of an object, if it is a [dict] that has it. *)
Definition field (key : string) (obj : value) : option value :=
  match obj with
  | VDict d => d !! key
  | _ => None
  end.

(** ** Sample worlds *)

(** The defaults of [OLLAMA_BASE_URL] and [OLLAMA_API_KEY]. *)
Definition default_base_url : string := "http://localhost:11434/v1".
Definition default_api_key : string := "ollama".

(** A stand-in for the builtin [str]; the samples below never reach it. *)
Definition sample_str : value → string := λ _, "".

Definition sample_body : gmap string value :=
  list_to_map [
    ("model", VStr "claude-haiku-4-5-20250514");
    ("system", VStr "be terse");
    ("messages", VList [dict [("role", VStr "user"); ("content", VStr "hi")]]);
    ("stream", VBool true)
  ].

Definition sample_payload : value :=
  dict [
    ("model", VStr "claude-haiku-4-5:latest");
    ("messages", VList [
      dict [("role", VStr "system"); ("content", VStr "be terse")];
      dict [("role", VStr "user"); ("content", VStr "hi")]
    ]);
    ("max_tokens", VInt 4096);
    ("temperature", VFloat float_0_7);
    ("stream", VBool false)
  ].

Definition sample_data : value :=
  dict [
    ("choices", VList [dict [("message", dict [("content", VStr "hi")])]]);
    ("usage", dict [("prompt_tokens", VInt 3); ("completion_tokens", VInt 1)])
  ].

Definition sample_success : httpx.Response := {|
  httpx.status_code := 200;
  httpx.text := "{...}";
  httpx.json := inr sample_data;
|}.

Definition sample_failure : httpx.Response := {|
  httpx.status_code := 500;
  httpx.text := "oops";
  httpx.json := inl "Expecting value: line 1 column 1 (char 0)";
|}.

(** A world whose backend answers the first post with [first] and would
    answer any later one with [sample_success]. *)
Definition sample_world (first : post_outcome) : world := {|
  w_request_json := inr (VDict sample_body);
  w_client_post := λ n _,
    match n with
    | 0 => first
    | S _ => PostReturned sample_success
    end;
  w_uuid4_hex := "0123456789abcdef0123456789abcdef";
|}.

(** ** The other endpoints *)

(** The keys of [DEFAULT_MODEL_MAP] in the order of its dict display, the
    order in which [DEFAULT_MODEL_MAP.keys()] yields them. *)
Definition DEFAULT_MODEL_MAP_keys : list string := [
  "claude-sonnet-4-5-20250514";
  "claude-opus-4-5-20251101";
  "claude-haiku-4-5-20250514";
  "claude-sonnet-4-5";
  "claude-opus-4-5";
  "claude-haiku-4-5";
  "claude-3-5-sonnet-latest";
  "claude-3-5-haiku-latest";
  "claude-3-opus-latest"
].

(** [GET /health]. *)
Definition health (OLLAMA_BASE_URL : string) : value :=
  dict [
    ("status", VStr "ok");
    ("service", VStr "anthropic-to-ollama-proxy");
    ("ollama_url", VStr OLLAMA_BASE_URL);
    ("available_models", VInt (Z.of_nat (size DEFAULT_MODEL_MAP)))
  ].

(** One entry of the comprehension in [list_models]. *)
Definition model_entry (model_name : string) : value :=
  dict [
    ("id", VStr model_name);
    ("object", VStr "model");
    ("created", VInt 0);
    ("owned_by", VStr "ollama")
  ].

(** [GET /v1/models]. *)
Definition list_models : value :=
  dict [("data", VList (model_entry <$> DEFAULT_MODEL_MAP_keys))].

(** ** Shapes the code accepts *)

(** An item of a content list whose text the loop collects although it is
    not a [str]: an object with a ["text"] field of another type. *)
Definition bad_item (item : value) : bool :=
  match item with
  | VDict d =>
      match d !! "text" with
      | Some (VStr _) | None => false
      | Some _ => true
      end
  | _ => false
  end.

(** Content that [extract_text_from_content] flattens without raising. *)
Definition content_ok (content : value) : bool :=
  match content with
  | VList items => forallb (λ item, negb (bad_item item)) items
  | _ => true
  end.

(** A message that [convert_message] converts without raising. *)
Definition message_ok (m : value) : bool :=
  match m with
  | VDict d => content_ok (dict_get d "content" (VStr ""))
  | _ => false
  end.

(** The fields of the body that [translate_request] reads into the
    payload. *)
Definition translated_fields : list string :=
  ["model"; "messages"; "system"; "max_tokens"; "temperature"].

(** * tool-creator: names

    [scripts/validate_names.py] and the validation of
    [scripts/apply_template.py].  Both compile the same two patterns and
    derive the module and skill names from the tool name in the same
    way. *)

(** ** Regular expressions *)

(** The patterns use literals, character ranges, alternation (inside a
    class), sequence, [*] and [+].  [Void], the pattern without a match,
    only arises in derivatives. *)
Inductive regex : Type :=
| Void
| Eps
| Lit (c : ascii)
| Range (lo hi : ascii)
| Alt (r1 r2 : regex)
| Seq (r1 r2 : regex)
| Star (r : regex).

(** [r+]. *)
Definition Plus (r : regex) : regex := Seq r (Star r).

Definition in_range (lo hi c : ascii) : bool :=
  (nat_of_ascii lo <=? nat_of_ascii c) && (nat_of_ascii c <=? nat_of_ascii hi).

Fixpoint nullable (r : regex) : bool :=
  match r with
  | Void | Lit _ | Range _ _ => false
  | Eps | Star _ => true
  | Alt r1 r2 => nullable r1 || nullable r2
  | Seq r1 r2 => nullable r1 && nullable r2
  end.

(** What is left of [r] to match after the character [c]. *)
Fixpoint deriv (c : ascii) (r : regex) : regex :=
  match r with
  | Void | Eps => Void
  | Lit c' => if bool_decide (c = c') then Eps else Void
  | Range lo hi => if in_range lo hi c then Eps else Void
  | Alt r1 r2 => Alt (deriv c r1) (deriv c r2)
  | Seq r1 r2 =>
      if nullable r1
      then Alt (Seq (deriv c r1) r2) (deriv c r2)
      else Seq (deriv c r1) r2
  | Star r1 => Seq (deriv c r1) (Star r1)
  end.

(** [r] matches the whole of [s]. *)
Fixpoint fullmatch (r : regex) (s : string) : bool :=
  match s with
  | EmptyString => nullable r
  | String c s' => fullmatch (deriv c r) s'
  end.

(** [s] without the newline that ends it, if one does. *)
Fixpoint chomp (s : string) : option string :=
  match s with
  | EmptyString => None
  | String c s' =>
      match s' with
      | EmptyString =>
          if bool_decide (c = "010"%char) then Some EmptyString else None
      | String _ _ => String c <$> chomp s'
      end
  end.

(** [bool(re.compile("^" + r + "$").match(s))]: without [re.MULTILINE],
    [^] is the start of the string and [$] is its end or the position
    just before a newline that ends it. *)
Definition anchored_match (r : regex) (s : string) : bool :=
  fullmatch r s || from_option (fullmatch r) false (chomp s).

(** The strings a pattern denotes. *)
Inductive lang : regex → string → Prop :=
| lang_Eps : lang Eps ""
| lang_Lit c : lang (Lit c) (String c "")
| lang_Range lo hi c :
    in_range lo hi c = true → lang (Range lo hi) (String c "")
| lang_Alt_l r1 r2 s : lang r1 s → lang (Alt r1 r2) s
| lang_Alt_r r1 r2 s : lang r2 s → lang (Alt r1 r2) s
| lang_Seq r1 r2 s1 s2 :
    lang r1 s1 → lang r2 s2 → lang (Seq r1 r2) (s1 +:+ s2)
| lang_Star_nil r : lang (Star r) ""
| lang_Star_cons r s1 s2 :
    lang r s1 → lang (Star r) s2 → lang (Star r) (s1 +:+ s2).

(** ** The two patterns *)

(** [a-z] and [0-9]. *)
Definition lower : regex := Range "a" "z".
Definition digit : regex := Range "0" "9".

(** [^[a-z0-9]+(?:-[a-z0-9]+)*$], between the anchors. *)
Definition TOOL_NAME_RE : regex :=
  Seq (Plus (Alt lower digit))
      (Star (Seq (Lit "-") (Plus (Alt lower digit)))).

(** [^[a-z_][a-z0-9_]*$], between the anchors. *)
Definition MODULE_NAME_RE : regex :=
  Seq (Alt lower (Lit "_")) (Star (Alt lower (Alt digit (Lit "_")))).

(** [s.replace(old, new)] for one-character [old] and [new]. *)
Fixpoint replace_char (old new : ascii) (s : string) : string :=
  match s with
  | EmptyString => EmptyString
  | String c s' =>
      String (if bool_decide (c = old) then new else c)
             (replace_char old new s')
  end.

(** ** [validate_names.py] *)

Definition validate_and_derive (tool_name : string) : value :=
  let module_name := replace_char "-" "_" tool_name in
  let skill_name := tool_name +:+ "-skill" in
  let tool_valid := anchored_match TOOL_NAME_RE tool_name in
  let module_valid := anchored_match MODULE_NAME_RE module_name in
  let skill_valid := anchored_match TOOL_NAME_RE skill_name in
  dict [
    ("tool_name", VStr tool_name);
    ("module_name", VStr module_name);
    ("skill_name", VStr skill_name);
    ("tool_valid", VBool tool_valid);
    ("module_valid", VBool module_valid);
    ("skill_valid", VBool skill_valid);
    ("all_valid", VBool (tool_valid && module_valid && skill_valid))
  ].

(** ** [apply_template.py] *)

(** How a validator ends: it returns [None], or raises [SystemExit] with
    a message. *)
Inductive validation : Type :=
| Returns
| SystemExit (message : string).

Definition validate_tool_name (tool_name : string) : validation :=
  if negb (anchored_match TOOL_NAME_RE tool_name) then
    SystemExit
      "Invalid tool name. Use kebab-case, letters/numbers only, e.g. asset-cli."
  else Returns.

Definition validate_module_name (module_name : string) : validation :=
  if negb (anchored_match MODULE_NAME_RE module_name) then
    SystemExit
      ("Invalid module name. Use snake_case, letters/numbers/underscore, "
       +:+ "and start with a letter or underscore.")
  else Returns.

Definition validate_skill_name (skill_name : string) : validation :=
  if negb (anchored_match TOOL_NAME_RE skill_name) then
    SystemExit
      ("Invalid skill name. Use kebab-case, letters/numbers only, "
       +:+ "e.g. asset-cli-skill.")
  else Returns.

(** One validator after another. *)
Definition and_then (v : validation) (next : validation) : validation :=
  match v with
  | Returns => next
  | SystemExit message => SystemExit message
  end.

(** Lines 94-96 and 104-107 of [main]: the names derived from
    [--tool-name] and the three validations, which run before anything is
    written.  The paths resolved in between play no part in them. *)
Definition main_validate (tool_name : string) : validation :=
  let module_name := replace_char "-" "_" tool_name in
  let skill_name := tool_name +:+ "-skill" in
  and_then (validate_tool_name tool_name)
    (and_then (validate_module_name module_name)
       (validate_skill_name skill_name)).

(** ** Names, in words *)

Fixpoint all_chars (p : ascii → bool) (s : string) : bool :=
  match s with
  | EmptyString => true
  | String c s' => p c && all_chars p s'
  end.

Definition is_lower (c : ascii) : bool := in_range "a" "z" c.
Definition is_alnum (c : ascii) : bool :=
  in_range "a" "z" c || in_range "0" "9" c.
Definition is_kebab_char (c : ascii) : bool :=
  is_alnum c || bool_decide (c = "-"%char).
Definition is_module_char (c : ascii) : bool :=
  in_range "a" "z" c || (in_range "0" "9" c || bool_decide (c = "_"%char)).

(** A non-empty run of lowercase letters and digits. *)
Definition word (w : string) : Prop := w ≠ "" ∧ all_chars is_alnum w = true.

(** Kebab case: words joined by single hyphens. *)
Definition kebab (s : string) : Prop :=
  ∃ w ws, Forall word (w :: ws) ∧ s = String.concat "-" (w :: ws).

(** The hyphen-led words after the first one. *)
Definition hyphenated (ws : list string) : string :=
  foldr (λ w acc, "-" +:+ w +:+ acc) "" ws.

(** * Properties *)

(** ** Joining and collecting *)

Lemma result_bind_Ok {A B} (f : A → result B) (a : A) :
  (Ok a ≫= f) = f a.
Proof. reflexivity. Qed.

Lemma as_strs_app (xs ys : list value) :
  as_strs (xs ++ ys) = (sx ← as_strs xs; sy ← as_strs ys; Ok (sx ++ sy)).
Proof.
  induction xs as [|x xs IH]; simpl.
  - destruct (as_strs ys); reflexivity.
  - destruct x; try reflexivity.
    rewrite IH. destruct (as_strs xs); simpl; [|reflexivity].
    destruct (as_strs ys); reflexivity.
Qed.

Lemma as_strs_VStr (ss : list string) : as_strs (VStr <$> ss) = Ok ss.
Proof.
  induction ss as [|s ss IH]; [reflexivity|].
  rewrite fmap_cons. cbn [as_strs]. rewrite IH. reflexivity.
Qed.

Lemma as_strs_inv (xs : list value) (ss : list string) :
  as_strs xs = Ok ss → xs = VStr <$> ss.
Proof.
  revert ss. induction xs as [|x xs IH]; intros ss; simpl.
  - intros [= <-]. reflexivity.
  - destruct x; try discriminate.
    destruct (as_strs xs) as [ss'|] eqn:E; simpl; [|discriminate].
    intros [= <-]. simpl. f_equal. apply IH. reflexivity.
Qed.

(** A turn of the loop only ever appends to [texts]. *)
Lemma extract_item_acc (texts : list value) (item : value) :
  extract_item texts item = texts ++ extract_item [] item.
Proof.
  destruct item; simpl; rewrite ?app_nil_r; try reflexivity.
  destruct (eq_str _ _); [reflexivity|].
  destruct (d !! "text"); rewrite ?app_nil_r; reflexivity.
Qed.

Lemma foldl_extract_item (texts : list value) (items : list value) :
  foldl extract_item texts items = texts ++ foldl extract_item [] items.
Proof.
  revert texts. induction items as [|item items IH]; intros texts; simpl.
  - rewrite app_nil_r. reflexivity.
  - rewrite IH, (IH (extract_item [] item)), extract_item_acc.
    rewrite app_assoc. reflexivity.
Qed.

Lemma foldl_extract_item_app (xs ys : list value) :
  foldl extract_item [] (xs ++ ys)
  = foldl extract_item [] xs ++ foldl extract_item [] ys.
Proof. rewrite foldl_app. apply foldl_extract_item. Qed.

(** On a well-typed block the loop appends what the spec says the block
    contributes. *)
Lemma extract_item_block (block : gmap string value) :
  text_is_str block = true →
  extract_item [] (VDict block) = VStr <$> option_list (block_text block).
Proof.
  unfold text_is_str, extract_item, block_text, has_text_discriminator,
    text_field, dict_get, eq_str.
  intros Ht.
  destruct (block !! "type") as [[]|]; simpl;
    destruct (block !! "text") as [[]|]; simpl; try discriminate;
    try reflexivity; case_bool_decide; reflexivity.
Qed.

Lemma foldl_extract_item_blocks (blocks : list (gmap string value)) :
  Forall (λ b, text_is_str b = true) blocks →
  foldl extract_item [] (VDict <$> blocks) = VStr <$> omap block_text blocks.
Proof.
  induction 1 as [|b blocks Hb _ IH]; [reflexivity|].
  rewrite fmap_cons. cbn [foldl omap list_omap].
  rewrite foldl_extract_item, IH, extract_item_block by assumption.
  destruct (block_text b); reflexivity.
Qed.

Lemma append_length (a b : string) :
  String.length (a +:+ b) = String.length a + String.length b.
Proof. induction a as [|c a IH]; simpl; [reflexivity|]. rewrite IH. reflexivity. Qed.

Lemma concat_length (sep : string) (ss : list string) :
  String.length (String.concat sep ss)
  = sum_list (String.length <$> ss) + String.length sep * (length ss - 1).
Proof.
  induction ss as [|s [|s' ss] IH]; [simpl; lia..|].
  change (String.concat sep (s :: s' :: ss))
    with (s +:+ sep +:+ String.concat sep (s' :: ss)).
  rewrite !append_length, IH. rewrite !fmap_cons. simpl. lia.
Qed.

(** ** Model Resolver *)

(** The table, entry by entry. *)
Lemma DEFAULT_MODEL_MAP_entries :
  map_to_list DEFAULT_MODEL_MAP ≡ₚ [
    ("claude-sonnet-4-5-20250514", "claude-sonet-4-5:latest");
    ("claude-opus-4-5-20251101", "claude-opus-4-5:latest");
    ("claude-haiku-4-5-20250514", "claude-haiku-4-5:latest");
    ("claude-sonnet-4-5", "claude-sonet-4-5:latest");
    ("claude-opus-4-5", "claude-opus-4-5:latest");
    ("claude-haiku-4-5", "claude-haiku-4-5:latest");
    ("claude-3-5-sonnet-latest", "claude-sonet-4-5:latest");
    ("claude-3-5-haiku-latest", "claude-haiku-4-5:latest");
    ("claude-3-opus-latest", "claude-opus-4-5:latest")
  ].
Proof.
  unfold DEFAULT_MODEL_MAP. apply map_to_list_to_map.
  compute_done.
Qed.

(** C5. A model identifier that is a key of [DEFAULT_MODEL_MAP] resolves to
    the value the table holds for it, and any other identifier resolves to
    itself.  [map_model] is a function from strings to strings: it is
    defined on every identifier and has no effect. *)
Theorem map_model_resolves (m : string) :
  (∀ target, DEFAULT_MODEL_MAP !! m = Some target → map_model m = target) ∧
  (DEFAULT_MODEL_MAP !! m = None → map_model m = m).
Proof.
  unfold map_model, dict_get.
  split; [intros target Hm|intros Hm]; rewrite Hm; reflexivity.
Qed.

Lemma map_model_resolves_witness :
  map_model "claude-opus-4-5" = "claude-opus-4-5:latest" ∧
  map_model "llama3:8b" = "llama3:8b".
Proof.
  split.
  - apply (proj1 (map_model_resolves "claude-opus-4-5")). reflexivity.
  - apply (proj2 (map_model_resolves "llama3:8b")). reflexivity.
Defined.

(** ** Content Normalizer *)

Section Normalizer.

Variable py_str : value → string.

Lemma extract_text_from_content_None :
  extract_text_from_content py_str VNone = Ok "".
Proof. reflexivity. Qed.

Lemma extract_text_from_content_str (s : string) :
  extract_text_from_content py_str (VStr s) = Ok s.
Proof. reflexivity. Qed.

(** C3. On a sequence of blocks (objects whose ["text"] field, when
    present, is a string) [extract_text_from_content] returns the texts
    the blocks contribute, in order, joined by one newline between
    neighbours and none at the end: a block with ["type": "text"]
    contributes its text field or the empty string, a block without that
    discriminator but with a text field contributes the field, any other
    block contributes nothing. *)
Theorem extract_text_from_content_blocks (blocks : list (gmap string value)) :
  Forall (λ b, text_is_str b = true) blocks →
  extract_text_from_content py_str (VList (VDict <$> blocks))
  = Ok (String.concat NL (omap block_text blocks)).
Proof.
  intros Hblocks. unfold extract_text_from_content, str_join.
  rewrite foldl_extract_item_blocks, as_strs_VStr by assumption.
  reflexivity.
Qed.

(** C9. A plain string among the items of a list is not dropped: it goes
    into the output as it is, at its place between the texts extracted
    before it and those extracted after it, joined to them by newlines. *)
Theorem extract_text_from_content_str_item
    (before after : list value) (s : string) (tb ta : list string) :
  as_strs (foldl extract_item [] before) = Ok tb →
  as_strs (foldl extract_item [] after) = Ok ta →
  extract_text_from_content py_str (VList (before ++ VStr s :: after))
  = Ok (String.concat NL (tb ++ s :: ta)).
Proof.
  intros Hb Ha. unfold extract_text_from_content, str_join.
  rewrite foldl_extract_item_app. cbn [foldl].
  rewrite (foldl_extract_item (extract_item [] (VStr s))).
  rewrite as_strs_app, Hb. cbn [extract_item app].
  rewrite result_bind_Ok. cbn [as_strs]. rewrite Ha. reflexivity.
Qed.

End Normalizer.

Lemma extract_text_from_content_blocks_witness :
  extract_text_from_content (λ _, "")
    (VList (VDict <$> [
      {["type" := VStr "text"; "text" := VStr "a"]};
      {["type" := VStr "text"]};
      {["type" := VStr "image"; "source" := VStr "..."]};
      {["text" := VStr "b"]}
    ]))
  = Ok ("a" +:+ NL +:+ "" +:+ NL +:+ "b").
Proof.
  rewrite extract_text_from_content_blocks by (repeat constructor).
  vm_compute. reflexivity.
Defined.

Lemma extract_text_from_content_str_item_witness :
  extract_text_from_content (λ _, "")
    (VList ([dict [("type", VStr "text"); ("text", VStr "a")]]
            ++ VStr "b" :: [VInt 7; VStr "c"]))
  = Ok ("a" +:+ NL +:+ "b" +:+ NL +:+ "c").
Proof.
  apply (extract_text_from_content_str_item (λ _, "")
    [dict [("type", VStr "text"); ("text", VStr "a")]] [VInt 7; VStr "c"]
    "b" ["a"] ["c"]); reflexivity.
Defined.

(** ** Request Translator *)

Section Translator.

Variable py_str : value → string.

Lemma truthy_system (system : option string) (out : list value) :
  (if truthy (from_option VStr VNone system)
   then out ++ [dict [("role", VStr "system");
                      ("content", from_option VStr VNone system)]]
   else out)
  = out ++ system_message system.
Proof.
  destruct system as [s|]; simpl; [|rewrite app_nil_r; reflexivity].
  case_bool_decide; simpl; rewrite ?app_nil_r; reflexivity.
Qed.

Lemma convert_message_dict
    (out : list value) (m : gmap string value) (c : string) :
  extract_text_from_content py_str (dict_get m "content" (VStr "")) = Ok c →
  convert_message py_str out (VDict m)
  = Ok (out ++ [target_message (dict_get m "role" (VStr "user")) c]).
Proof.
  intros Hc. unfold convert_message. cbn [py_get mbind result_bind].
  rewrite Hc. reflexivity.
Qed.

(** The loop over the messages appends one target message per source
    message, in order. *)
Lemma for_each_convert_message
    (ms : list (gmap string value)) (cs : list string) (out : list value) :
  Forall2 (λ m c, extract_text_from_content py_str
                    (dict_get m "content" (VStr "")) = Ok c) ms cs →
  for_each (convert_message py_str) (VDict <$> ms) out
  = Ok (out ++ zip_with
          (λ m c, target_message (dict_get m "role" (VStr "user")) c) ms cs).
Proof.
  intros Hcs. revert out.
  induction Hcs as [|m c ms cs Hc _ IH]; intros out.
  - simpl. rewrite app_nil_r. reflexivity.
  - rewrite fmap_cons. cbn [for_each zip_with].
    rewrite (convert_message_dict out m c Hc). cbn [mbind result_bind].
    rewrite IH, <- app_assoc. reflexivity.
Qed.

(** C4. For a request whose [system] is an optional string and whose
    messages are objects with normalizable content, the target message
    list is the system message [{role: "system", content: system}] exactly
    when [system] is present and non-empty, followed, for each source
    message in order, by [{role: message.role, content:
    normalize(message.content)}]. *)
Theorem anthropic_messages_to_openai_spec
    (system : option string) (ms : list (gmap string value))
    (cs : list string) :
  Forall2 (λ m c, extract_text_from_content py_str
                    (dict_get m "content" (VStr "")) = Ok c) ms cs →
  anthropic_messages_to_openai py_str
    (VList (VDict <$> ms)) (from_option VStr VNone system)
  = Ok (system_message system
        ++ zip_with
             (λ m c, target_message (dict_get m "role" (VStr "user")) c)
             ms cs).
Proof.
  intros Hcs. unfold anthropic_messages_to_openai.
  cbn [py_iter mbind result_bind].
  rewrite (truthy_system system []).
  apply for_each_convert_message, Hcs.
Qed.

(** The example of the specification. *)
Example anthropic_messages_to_openai_be_terse :
  anthropic_messages_to_openai py_str
    (VList [dict [("role", VStr "user"); ("content", VStr "hi")]])
    (VStr "be terse")
  = Ok [dict [("role", VStr "system"); ("content", VStr "be terse")];
        dict [("role", VStr "user"); ("content", VStr "hi")]].
Proof. reflexivity. Qed.

Lemma dict_get_insert_ne {A} (d : gmap string A) (k k' : string) (v dflt : A) :
  k ≠ k' → dict_get (<[k:=v]> d) k' dflt = dict_get d k' dflt.
Proof. intros Hk. unfold dict_get. rewrite lookup_insert_ne by exact Hk. reflexivity. Qed.

Lemma dict_get_insert_eq {A} (d : gmap string A) (k : string) (v dflt : A) :
  dict_get (<[k:=v]> d) k dflt = v.
Proof. unfold dict_get. rewrite lookup_insert_eq. reflexivity. Qed.

Lemma dict_get_None {A} (d : gmap string A) (k : string) (dflt : A) :
  d !! k = None → dict_get d k dflt = dflt.
Proof. intros Hk. unfold dict_get. rewrite Hk. reflexivity. Qed.


End Translator.

(** ** The endpoint as a whole *)

Section Gateway.

Variable py_str : value → string.
Variable OLLAMA_BASE_URL : string.
Variable OLLAMA_API_KEY : string.

Abbreviation handler := (handle_messages py_str OLLAMA_BASE_URL OLLAMA_API_KEY).
Abbreviation backend_call :=
  (completion_call OLLAMA_BASE_URL OLLAMA_API_KEY).

Lemma run_translate_response (w : world) (posts : list call)
    (model data : value) :
  run_from w posts (translate_response model data)
  = (translate_response_with (w_uuid4_hex w) model data, rev posts).
Proof.
  unfold translate_response, translate_response_with.
  destruct (response_text data) as [text|e]; [|reflexivity].
  cbn [lift mbind prog_mbind prog_bind result_bind uuid4_hex run_from].
  destruct (message_response _ _ _ _); reflexivity.
Qed.

(** What the endpoint does in a world, case by case. *)
Lemma run_handle_messages (w : world) :
  run w handler =
  match w_request_json w with
  | inl str_e =>
      (Ok (BodyStatus
             (dict [("error", dict [
                ("type", VStr "invalid_request_error");
                ("message", VStr ("Invalid JSON: " +:+ str_e))])])
             400), [])
  | inr body =>
      match translate_request py_str body with
      | Raise e => (Raise e, [])
      | Ok (model, payload) =>
          (match after_post (w_client_post w 0 (backend_call payload)) with
           | HTTPStatusError response =>
               Ok (Body (error_envelope "api_error"
                 ("Ollama error: " +:+ pretty (httpx.status_code response)
                    +:+ " - " +:+ httpx.text response)))
           | OtherException str_e =>
               Ok (Body (error_envelope "api_error"
                 ("Connection error: " +:+ str_e)))
           | Data data =>
               translate_response_with (w_uuid4_hex w) model data
           end, [backend_call payload])
      end
  end.
Proof.
  unfold run, handle_messages.
  cbn [request_json mbind prog_mbind prog_bind run_from].
  destruct (w_request_json w) as [str_e|body]; [reflexivity|].
  destruct (translate_request py_str body) as [[model payload]|e];
    [|reflexivity].
  cbn [lift client_post mbind prog_mbind prog_bind run_from length].
  destruct (after_post _); try reflexivity.
  apply run_translate_response.
Qed.

(** A translated request, taken apart. *)
Lemma translate_request_inv (body model payload : value) :
  translate_request py_str body = Ok (model, payload) →
  ∃ (d : gmap string value) (target_model : value) (msgs : list value),
    body = VDict d ∧
    model = dict_get d "model" (VStr "claude-haiku-4-5") ∧
    map_model_obj model = Ok target_model ∧
    anthropic_messages_to_openai py_str
      (dict_get d "messages" (VList [])) (dict_get d "system" VNone)
    = Ok msgs ∧
    payload = dict [
      ("model", target_model);
      ("messages", VList msgs);
      ("max_tokens", dict_get d "max_tokens" (VInt 4096));
      ("temperature", dict_get d "temperature" (VFloat float_0_7));
      ("stream", VBool false)
    ].
Proof.
  destruct body as [| | | | | |d]; try discriminate.
  unfold translate_request. cbn [py_get mbind result_bind].
  destruct (map_model_obj _) as [target_model|] eqn:Htarget;
    [|discriminate].
  cbn [mbind result_bind].
  destruct (anthropic_messages_to_openai _ _ _) as [msgs|] eqn:Hmsgs;
    [|discriminate].
  cbn [mbind result_bind]. intros [= <- <-].
  exists d, target_model, msgs. auto.
Qed.

Lemma payload_stream (body model payload : value) :
  translate_request py_str body = Ok (model, payload) →
  field "stream" payload = Some (VBool false).
Proof.
  intros (d & target & msgs & _ & _ & _ & _ & ->)%translate_request_inv.
  reflexivity.
Qed.

Lemma payload_model (body : gmap string value) (m : string)
    (model payload : value) :
  body !! "model" = Some (VStr m) →
  translate_request py_str (VDict body) = Ok (model, payload) →
  model = VStr m ∧ field "model" payload = Some (VStr (map_model m)).
Proof.
  intros Hm (d & target & msgs & [= <-] & -> & Htarget & _ & ->)
    %translate_request_inv.
  unfold dict_get in *. rewrite Hm in *. cbn [default] in *.
  injection Htarget as <-. split; reflexivity.
Qed.

(** ** Response Translator *)

Lemma response_text_no_choices (data : gmap string value) :
  data !! "choices" = None → response_text (VDict data) = Ok (VStr "").
Proof.
  intros Hc. unfold response_text. cbn [py_get mbind result_bind].
  rewrite dict_get_None by exact Hc. reflexivity.
Qed.

Lemma response_text_no_message (data first : gmap string value)
    (others : list value) :
  data !! "choices" = Some (VList (VDict first :: others)) →
  first !! "message" = None →
  response_text (VDict data) = Ok (VStr "").
Proof.
  intros Hc Hm. unfold response_text, py_get, dict_get.
  rewrite Hc. simpl. rewrite Hm. reflexivity.
Qed.

Lemma response_text_no_content (data first message : gmap string value)
    (others : list value) :
  data !! "choices" = Some (VList (VDict first :: others)) →
  first !! "message" = Some (VDict message) →
  message !! "content" = None →
  response_text (VDict data) = Ok (VStr "").
Proof.
  intros Hc Hm Ht. unfold response_text, py_get, dict_get.
  rewrite Hc. simpl. rewrite Hm. simpl. rewrite Ht. reflexivity.
Qed.

Lemma usage_field_no_usage (data : gmap string value) (name : string) :
  data !! "usage" = None → usage_field (VDict data) name = Ok (VInt 0).
Proof.
  intros Hu. unfold usage_field, py_get, dict_get. rewrite Hu. reflexivity.
Qed.

Lemma usage_field_absent (data usage : gmap string value) (name : string) :
  data !! "usage" = Some (VDict usage) → usage !! name = None →
  usage_field (VDict data) name = Ok (VInt 0).
Proof.
  intros Hu Hn. unfold usage_field, py_get, dict_get.
  rewrite Hu. simpl. rewrite Hn. reflexivity.
Qed.

(** The empty reply [{}] of the specification's example. *)
Example translate_response_with_empty_reply (hex : string) (model : value) :
  translate_response_with hex model (dict [])
  = Ok (Body (dict [
      ("id", VStr ("msg_" +:+ String.substring 0 24 hex));
      ("type", VStr "message");
      ("role", VStr "assistant");
      ("model", model);
      ("content", VList [dict [("type", VStr "text"); ("text", VStr "")]]);
      ("stop_reason", VStr "end_turn");
      ("stop_sequence", VNone);
      ("usage", dict [("input_tokens", VInt 0); ("output_tokens", VInt 0)])
    ])).
Proof. reflexivity. Qed.

(** The successful reply of the specification's example. *)
Example translate_response_with_sample (hex : string) (model : value) :
  translate_response_with hex model sample_data
  = Ok (Body (dict [
      ("id", VStr ("msg_" +:+ String.substring 0 24 hex));
      ("type", VStr "message");
      ("role", VStr "assistant");
      ("model", model);
      ("content", VList [dict [("type", VStr "text"); ("text", VStr "hi")]]);
      ("stop_reason", VStr "end_turn");
      ("stop_sequence", VNone);
      ("usage", dict [("input_tokens", VInt 3); ("output_tokens", VInt 1)])
    ])).
Proof. reflexivity. Qed.

(** C1. Where the claim fails: a successful backend reply whose
    ["choices"] is the empty list.  The default [[{}]] only stands in for
    an absent key, so [[][0]] raises [IndexError], after the [try] block,
    and the endpoint returns nothing. *)
Theorem handle_messages_empty_choices
    (body_text hex : string) (later : nat → call → post_outcome) :
  response_text (dict [("choices", VList [])]) = Raise IndexError ∧
  (run {|
     w_request_json := inr (dict [
       ("model", VStr "claude-haiku-4-5");
       ("messages", VList [dict [("role", VStr "user");
                                 ("content", VStr "hi")]])
     ]);
     w_client_post := λ n c,
       match n with
       | 0 => PostReturned {|
           httpx.status_code := 200;
           httpx.text := body_text;
           httpx.json := inr (dict [("choices", VList [])]);
         |}
       | S n' => later n' c
       end;
     w_uuid4_hex := hex;
   |} handler).1 = Raise IndexError.
Proof. split; reflexivity. Qed.

(** ** Error Mapper *)

(** C2. A body that [request.json()] cannot parse: the endpoint returns
    the tuple of a dict and 400 without calling the backend.  The dict
    holds the ["error"] object with type ["invalid_request_error"] and a
    message ending in the parse failure, but no top-level ["type"], which
    the envelopes of the two other error paths carry. *)
Theorem handle_messages_invalid_json
    (str_e hex : string) (backend : nat → call → post_outcome) :
  let envelope := dict [("error", dict [
        ("type", VStr "invalid_request_error");
        ("message", VStr ("Invalid JSON: " +:+ str_e))])] in
  run {| w_request_json := inl str_e;
         w_client_post := backend;
         w_uuid4_hex := hex |} handler
  = (Ok (BodyStatus envelope 400), []) ∧
  field "type" envelope = None ∧
  field "type" (error_envelope "invalid_request_error"
                  ("Invalid JSON: " +:+ str_e)) = Some (VStr "error").
Proof. repeat split. Qed.

Lemma append_assoc (a b c : string) : (a +:+ b) +:+ c = a +:+ b +:+ c.
Proof.
  induction a as [|x a IH]; [reflexivity|exact (f_equal (String x) IH)].
Qed.

Lemma append_empty_r (a : string) : a +:+ "" = a.
Proof.
  induction a as [|x a IH]; [reflexivity|exact (f_equal (String x) IH)].
Qed.

Lemma includes_here (sub after : string) : includes sub (sub +:+ after).
Proof. exists "", after. reflexivity. Qed.

Lemma includes_refl (s : string) : includes s s.
Proof. exists "", "". symmetry. apply append_empty_r. Qed.

Lemma includes_append_l (sub a s : string) :
  includes sub s → includes sub (a +:+ s).
Proof.
  intros (before & after & ->). exists (a +:+ before), after.
  rewrite append_assoc. reflexivity.
Qed.

(** C7. When the backend answers with a status outside 200..299, the
    endpoint returns the dict [{"type": "error", "error": {"type":
    "api_error", "message": m}}] where [m] is ["Ollama error: "], the
    status code in decimal, [" - "] and the response body text verbatim;
    when the call fails in transport, it returns the same dict with [m]
    made of ["Connection error: "] and the description of the failure.  In
    both cases the endpoint returns (nothing is raised) and the backend
    was called exactly once, with the translated payload, whatever a
    further call would have given. *)
Theorem backend_failure_envelope (w : world) (body model payload : value) :
  w_request_json w = inr body →
  translate_request py_str body = Ok (model, payload) →
  (∀ resp, w_client_post w 0 (backend_call payload) = PostReturned resp →
     ¬ (200 ≤ httpx.status_code resp ≤ 299)%Z →
     ∃ message c,
       run w handler
       = (Ok (Body (dict [
            ("type", VStr "error");
            ("error", dict [("type", VStr "api_error");
                            ("message", VStr message)])])),
          [c]) ∧
       call_json c = payload ∧
       message = "Ollama error: " +:+ pretty (httpx.status_code resp)
                 +:+ " - " +:+ httpx.text resp ∧
       includes (pretty (httpx.status_code resp)) message ∧
       includes (httpx.text resp) message) ∧
  (∀ str_e, w_client_post w 0 (backend_call payload) = PostRaised str_e →
     ∃ message c,
       run w handler
       = (Ok (Body (dict [
            ("type", VStr "error");
            ("error", dict [("type", VStr "api_error");
                            ("message", VStr message)])])),
          [c]) ∧
       call_json c = payload ∧
       message = "Connection error: " +:+ str_e ∧
       includes str_e message).
Proof.
  intros Hbody Hreq. rewrite run_handle_messages, Hbody, Hreq. split.
  - intros resp -> Hstatus. unfold after_post, httpx.is_success.
    rewrite bool_decide_eq_false_2 by exact Hstatus.
    eexists _, _. split; [reflexivity|]. split; [reflexivity|].
    split; [reflexivity|]. split.
    + apply includes_append_l, includes_here.
    + do 3 apply includes_append_l. apply includes_refl.
  - intros str_e ->. cbn [after_post].
    eexists _, _. split; [reflexivity|]. split; [reflexivity|].
    split; [reflexivity|]. apply includes_append_l, includes_refl.
Qed.

(** ** Model round trip and streaming *)

(** C6. For a request whose model is the string [m]: the payload sent to
    the backend carries [map_model m], in the one call made; every reply
    of type ["message"] the endpoint returns carries [m] itself, and such
    a reply is returned whenever the backend's data yields a text and
    usage counts.  In particular ["claude-haiku-4-5-20250514"] goes to the
    backend as ["claude-haiku-4-5:latest"]. *)
Theorem model_round_trip (w : world) (body : gmap string value) (m : string)
    (model payload : value) :
  w_request_json w = inr (VDict body) →
  body !! "model" = Some (VStr m) →
  translate_request py_str (VDict body) = Ok (model, payload) →
  field "model" payload = Some (VStr (map_model m)) ∧
  (run w handler).2 = [backend_call payload] ∧
  (∀ content,
     (run w handler).1 = Ok (Body content) →
     field "type" content = Some (VStr "message") →
     field "model" content = Some (VStr m)) ∧
  (∀ data text input output,
     after_post (w_client_post w 0 (backend_call payload)) = Data data →
     response_text data = Ok text →
     usage_field data "prompt_tokens" = Ok input →
     usage_field data "completion_tokens" = Ok output →
     ∃ content,
       (run w handler).1 = Ok (Body content) ∧
       field "type" content = Some (VStr "message") ∧
       field "model" content = Some (VStr m)) ∧
  map_model "claude-haiku-4-5-20250514" = "claude-haiku-4-5:latest".
Proof.
  intros Hbody Hm Hreq.
  destruct (payload_model body m model payload Hm Hreq) as [-> Hpayload].
  rewrite run_handle_messages, Hbody, Hreq. cbn [fst snd].
  split; [exact Hpayload|]. split; [reflexivity|].
  split; [|split; [|reflexivity]].
  - intros content.
    destruct (after_post _) as [data|resp|str_e].
    + unfold translate_response_with, message_response.
      destruct (response_text data); [|discriminate].
      cbn [mbind result_bind].
      destruct (usage_field data "prompt_tokens"); [|discriminate].
      cbn [mbind result_bind].
      destruct (usage_field data "completion_tokens"); [|discriminate].
      cbn [mbind result_bind]. intros [= <-] _. reflexivity.
    + intros [= <-] [=].
    + intros [= <-] [=].
  - intros data text input output -> Htext Hin Hout.
    unfold translate_response_with, message_response.
    rewrite Htext. cbn [mbind result_bind].
    rewrite Hin. cbn [mbind result_bind].
    rewrite Hout. cbn [mbind result_bind].
    eexists. split; [reflexivity|]. split; reflexivity.
Qed.

(** C8. Every payload the endpoint posts has ["stream"] set to [False];
    a translatable request is posted once, with that payload; and the
    body's own ["stream"] field, whatever its value and whether it is
    there at all, changes nothing of the translation. *)
Theorem payload_stream_false (w : world) :
  Forall (λ c, field "stream" (call_json c) = Some (VBool false))
    (run w handler).2 ∧
  (∀ body model payload,
     w_request_json w = inr body →
     translate_request py_str body = Ok (model, payload) →
     (run w handler).2 = [backend_call payload] ∧
     field "stream" payload = Some (VBool false)) ∧
  (∀ (body : gmap string value) (v : value),
     translate_request py_str (VDict (<["stream" := v]> body))
     = translate_request py_str (VDict (delete "stream" body))).
Proof.
  split; [|split].
  - rewrite run_handle_messages.
    destruct (w_request_json w) as [str_e|body]; [constructor|].
    destruct (translate_request py_str body) as [[model payload]|e] eqn:Hreq;
      [|constructor].
    repeat constructor. exact (payload_stream _ _ _ Hreq).
  - intros body model payload Hbody Hreq.
    rewrite run_handle_messages, Hbody, Hreq.
    split; [reflexivity|exact (payload_stream _ _ _ Hreq)].
  - intros body v. unfold translate_request, py_get.
    cbn [mbind result_bind]. unfold dict_get.
    rewrite !lookup_insert_ne, !lookup_delete_ne by discriminate.
    reflexivity.
Qed.

(** C10. Absent fields get their defaults before translation.  A body
    without ["model"] is translated with the echoed model
    ["claude-haiku-4-5"] and the payload model ["claude-haiku-4-5:latest"],
    which is what the backend is sent and what a message reply carries.  A
    message without ["role"] is converted with role ["user"].  A message
    without ["content"] is converted with content [""]. *)
Theorem absent_fields_default :
  (∀ (body : gmap string value) (msgs : list value),
     body !! "model" = None →
     anthropic_messages_to_openai py_str
       (dict_get body "messages" (VList [])) (dict_get body "system" VNone)
     = Ok msgs →
     translate_request py_str (VDict body)
     = Ok (VStr "claude-haiku-4-5",
           dict [
             ("model", VStr "claude-haiku-4-5:latest");
             ("messages", VList msgs);
             ("max_tokens", dict_get body "max_tokens" (VInt 4096));
             ("temperature", dict_get body "temperature" (VFloat float_0_7));
             ("stream", VBool false)
           ])) ∧
  (∀ (w : world) (body : gmap string value) (msgs : list value),
     w_request_json w = inr (VDict body) →
     body !! "model" = None →
     anthropic_messages_to_openai py_str
       (dict_get body "messages" (VList [])) (dict_get body "system" VNone)
     = Ok msgs →
     (∃ c, (run w handler).2 = [c] ∧
           field "model" (call_json c)
           = Some (VStr "claude-haiku-4-5:latest")) ∧
     (∀ content,
        (run w handler).1 = Ok (Body content) →
        field "type" content = Some (VStr "message") →
        field "model" content = Some (VStr "claude-haiku-4-5"))) ∧
  (∀ (out : list value) (m : gmap string value) (c : string),
     m !! "role" = None →
     extract_text_from_content py_str (dict_get m "content" (VStr "")) = Ok c →
     convert_message py_str out (VDict m)
     = Ok (out ++ [dict [("role", VStr "user"); ("content", VStr c)]])) ∧
  (∀ (out : list value) (m : gmap string value),
     m !! "content" = None →
     convert_message py_str out (VDict m)
     = Ok (out ++ [dict [("role", dict_get m "role" (VStr "user"));
                         ("content", VStr "")]])).
Proof.
  assert (Htranslate : ∀ (body : gmap string value) (msgs : list value),
    body !! "model" = None →
    anthropic_messages_to_openai py_str
      (dict_get body "messages" (VList [])) (dict_get body "system" VNone)
    = Ok msgs →
    translate_request py_str (VDict body)
    = Ok (VStr "claude-haiku-4-5",
          dict [
            ("model", VStr "claude-haiku-4-5:latest");
            ("messages", VList msgs);
            ("max_tokens", dict_get body "max_tokens" (VInt 4096));
            ("temperature", dict_get body "temperature" (VFloat float_0_7));
            ("stream", VBool false)
          ])).
  { intros body msgs Hmodel Hmsgs. unfold translate_request.
    cbn [py_get mbind result_bind].
    rewrite (dict_get_None body "model") by exact Hmodel.
    cbn [map_model_obj mbind result_bind]. rewrite Hmsgs. reflexivity. }
  split; [exact Htranslate|]. split; [|split].
  - intros w body msgs Hbody Hmodel Hmsgs.
    rewrite run_handle_messages, Hbody, (Htranslate body msgs Hmodel Hmsgs).
    cbn [fst snd]. split; [eexists; split; reflexivity|].
    intros content.
    destruct (after_post _) as [data|resp|str_e].
    + unfold translate_response_with, message_response.
      destruct (response_text data); [|discriminate].
      cbn [mbind result_bind].
      destruct (usage_field data "prompt_tokens"); [|discriminate].
      cbn [mbind result_bind].
      destruct (usage_field data "completion_tokens"); [|discriminate].
      cbn [mbind result_bind]. intros [= <-] _. reflexivity.
    + intros [= <-] [=].
    + intros [= <-] [=].
  - intros out m c Hrole Hc. unfold convert_message.
    cbn [py_get mbind result_bind].
    rewrite (dict_get_None m "role") by exact Hrole. rewrite Hc. reflexivity.
  - intros out m Hcontent. unfold convert_message.
    cbn [py_get mbind result_bind].
    rewrite (dict_get_None m "content") by exact Hcontent. reflexivity.
Qed.

End Gateway.

(** ** The theorems at the sample worlds *)

Lemma anthropic_messages_to_openai_spec_witness :
  anthropic_messages_to_openai sample_str
    (VList [dict [("role", VStr "user"); ("content", VStr "hi")]])
    (VStr "be terse")
  = Ok [dict [("role", VStr "system"); ("content", VStr "be terse")];
        dict [("role", VStr "user"); ("content", VStr "hi")]].
Proof.
  refine (eq_trans
    (anthropic_messages_to_openai_spec sample_str (Some "be terse")
       [list_to_map [("role", VStr "user"); ("content", VStr "hi")]]
       ["hi"] _) _).
  - repeat constructor.
  - reflexivity.
Defined.

Lemma absent_fields_default_witness :
  translate_request sample_str
    (dict [("messages", VList [dict [("content", VStr "hi")]])])
  = Ok (VStr "claude-haiku-4-5",
        dict [
          ("model", VStr "claude-haiku-4-5:latest");
          ("messages", VList [dict [("role", VStr "user");
                                    ("content", VStr "hi")]]);
          ("max_tokens", VInt 4096);
          ("temperature", VFloat float_0_7);
          ("stream", VBool false)
        ]) ∧
  (∃ c,
     (run {| w_request_json :=
               inr (dict [("messages", VList [dict [("content", VStr "hi")]])]);
             w_client_post := λ _ _, PostReturned sample_success;
             w_uuid4_hex := "0123456789abcdef0123456789abcdef" |}
        (handle_messages sample_str default_base_url default_api_key)).2
     = [c] ∧
     field "model" (call_json c) = Some (VStr "claude-haiku-4-5:latest")) ∧
  convert_message sample_str [] (dict [("content", VStr "hi")])
  = Ok [dict [("role", VStr "user"); ("content", VStr "hi")]] ∧
  convert_message sample_str [] (dict [("role", VStr "assistant")])
  = Ok [dict [("role", VStr "assistant"); ("content", VStr "")]].
Proof.
  destruct (absent_fields_default sample_str default_base_url default_api_key)
    as (Hmodel & Hrun & Hrole & Hcontent).
  split; [|split; [|split]].
  - exact (Hmodel
      (list_to_map [("messages", VList [dict [("content", VStr "hi")]])])
      [dict [("role", VStr "user"); ("content", VStr "hi")]]
      eq_refl eq_refl).
  - exact (proj1 (Hrun
      {| w_request_json :=
           inr (dict [("messages", VList [dict [("content", VStr "hi")]])]);
         w_client_post := λ _ _, PostReturned sample_success;
         w_uuid4_hex := "0123456789abcdef0123456789abcdef" |}
      (list_to_map [("messages", VList [dict [("content", VStr "hi")]])])
      [dict [("role", VStr "user"); ("content", VStr "hi")]]
      eq_refl eq_refl eq_refl)).
  - exact (Hrole [] (list_to_map [("content", VStr "hi")]) "hi"
             eq_refl eq_refl).
  - exact (Hcontent [] (list_to_map [("role", VStr "assistant")]) eq_refl).
Defined.

Lemma model_round_trip_witness :
  field "model" sample_payload = Some (VStr "claude-haiku-4-5:latest") ∧
  ∃ content,
    (run (sample_world (PostReturned sample_success))
       (handle_messages sample_str default_base_url default_api_key)).1
    = Ok (Body content) ∧
    field "type" content = Some (VStr "message") ∧
    field "model" content = Some (VStr "claude-haiku-4-5-20250514").
Proof.
  destruct (model_round_trip sample_str default_base_url default_api_key
    (sample_world (PostReturned sample_success)) sample_body
    "claude-haiku-4-5-20250514" (VStr "claude-haiku-4-5-20250514")
    sample_payload eq_refl eq_refl eq_refl) as (Hpayload & _ & _ & Hreply & _).
  split; [exact Hpayload|].
  exact (Hreply sample_data (VStr "hi") (VInt 3) (VInt 1)
           eq_refl eq_refl eq_refl eq_refl).
Defined.

Lemma backend_failure_envelope_witness :
  (∃ message c,
     run (sample_world (PostReturned sample_failure))
       (handle_messages sample_str default_base_url default_api_key)
     = (Ok (Body (dict [
          ("type", VStr "error");
          ("error", dict [("type", VStr "api_error");
                          ("message", VStr message)])])),
        [c]) ∧
     call_json c = sample_payload ∧
     message = "Ollama error: 500 - oops" ∧
     includes "500" message ∧ includes "oops" message) ∧
  (∃ message c,
     run (sample_world (PostRaised "timed out"))
       (handle_messages sample_str default_base_url default_api_key)
     = (Ok (Body (dict [
          ("type", VStr "error");
          ("error", dict [("type", VStr "api_error");
                          ("message", VStr message)])])),
        [c]) ∧
     call_json c = sample_payload ∧
     message = "Connection error: timed out" ∧
     includes "timed out" message).
Proof.
  split.
  - apply (proj1 (backend_failure_envelope sample_str default_base_url
      default_api_key (sample_world (PostReturned sample_failure))
      (VDict sample_body) (VStr "claude-haiku-4-5-20250514") sample_payload
      eq_refl eq_refl) sample_failure eq_refl).
    simpl. lia.
  - exact (proj2 (backend_failure_envelope sample_str default_base_url
      default_api_key (sample_world (PostRaised "timed out"))
      (VDict sample_body) (VStr "claude-haiku-4-5-20250514") sample_payload
      eq_refl eq_refl) "timed out" eq_refl).
Defined.

Lemma payload_stream_false_witness :
  (run (sample_world (PostReturned sample_success))
     (handle_messages sample_str default_base_url default_api_key)).2
  = [completion_call default_base_url default_api_key sample_payload] ∧
  field "stream" sample_payload = Some (VBool false) ∧
  translate_request sample_str (VDict (<["stream" := VBool true]> sample_body))
  = translate_request sample_str (VDict (delete "stream" sample_body)).
Proof.
  destruct (payload_stream_false sample_str default_base_url default_api_key
    (sample_world (PostReturned sample_success))) as (_ & Hposted & Hstream).
  destruct (Hposted (VDict sample_body) (VStr "claude-haiku-4-5-20250514")
    sample_payload eq_refl eq_refl) as [Hcall Hfalse].
  split; [exact Hcall|]. split; [exact Hfalse|].
  exact (Hstream sample_body (VBool true)).
Defined.

(** * Further properties of the proxy *)

(** ** When flattening and conversion raise *)

Lemma extract_item_good (item : value) :
  bad_item item = false → ∃ ss, extract_item [] item = VStr <$> ss.
Proof.
  destruct item as [| | | |s| |d]; simpl; intros Hbad;
    try (exists []; reflexivity).
  - exists [s]. reflexivity.
  - unfold dict_get.
    destruct (d !! "text") as [[| | | |t| |]|]; try discriminate; simpl.
    + destruct (eq_str _ _); exists [t]; reflexivity.
    + destruct (eq_str _ _); [exists [""]|exists []]; reflexivity.
Qed.

Lemma extract_item_bad (item : value) :
  bad_item item = true →
  ∃ v, extract_item [] item = [v] ∧ ∀ s, v ≠ VStr s.
Proof.
  destruct item as [| | | |s| |d]; simpl; try discriminate.
  unfold dict_get.
  destruct (d !! "text") as [t|]; [|discriminate].
  intros Hbad. exists t. split.
  - simpl. destruct (eq_str _ _); reflexivity.
  - intros s ->. discriminate.
Qed.

Lemma as_strs_not_str (v : value) (rest : list value) :
  (∀ s, v ≠ VStr s) → as_strs (v :: rest) = Raise TypeError.
Proof. destruct v; try reflexivity. intros H. destruct (H s eq_refl). Qed.

Lemma as_strs_raises (xs : list value) (e : exn) :
  as_strs xs = Raise e → e = TypeError.
Proof.
  induction xs as [|x xs IH]; simpl; [discriminate|].
  destruct x; try (intros [= <-]; reflexivity).
  destruct (as_strs xs); simpl; [discriminate|].
  intros [= <-]. apply IH. reflexivity.
Qed.

Lemma collected_strs (items : list value) :
  as_strs (foldl extract_item [] items)
  = if forallb (λ item, negb (bad_item item)) items
    then as_strs (foldl extract_item [] items)
    else Raise TypeError.
Proof.
  induction items as [|item items IH]; [reflexivity|].
  cbn [foldl forallb]. rewrite foldl_extract_item, as_strs_app.
  destruct (bad_item item) eqn:Hbad; cbn [negb andb].
  - destruct (extract_item_bad item Hbad) as (v & -> & Hv).
    rewrite (as_strs_not_str v [] Hv). reflexivity.
  - destruct (forallb _ items); [reflexivity|].
    rewrite IH. destruct (as_strs (extract_item [] item)) eqn:E;
      [reflexivity|].
    simpl. f_equal. apply (as_strs_raises _ _ E).
Qed.

Lemma collected_strs_ok (items : list value) :
  forallb (λ item, negb (bad_item item)) items = true →
  ∃ ss, foldl extract_item [] items = VStr <$> ss.
Proof.
  induction items as [|item items IH]; cbn [forallb foldl].
  - exists []. reflexivity.
  - intros [Hitem Hitems]%andb_prop.
    apply negb_true_iff in Hitem.
    destruct (extract_item_good item Hitem) as [s1 E1].
    destruct (IH Hitems) as [s2 E2].
    exists (s1 ++ s2). rewrite foldl_extract_item, E1, E2, fmap_app.
    reflexivity.
Qed.

Section Failures.

Variable py_str : value → string.

(** X1. [extract_text_from_content] raises nothing but [TypeError], and
    raises it exactly on a list one of whose objects has a ["text"] field
    that is not a string; on every other content it returns. *)
Theorem extract_text_from_content_raises (content : value) :
  match extract_text_from_content py_str content with
  | Ok _ => content_ok content = true
  | Raise e => e = TypeError ∧ content_ok content = false
  end.
Proof.
  destruct content as [| | | | |items|]; try reflexivity.
  cbn [extract_text_from_content content_ok]. unfold str_join.
  rewrite collected_strs.
  destruct (forallb _ items) eqn:Hok; [|split; reflexivity].
  destruct (collected_strs_ok items Hok) as [ss ->].
  rewrite as_strs_VStr. reflexivity.
Qed.

Lemma extract_text_from_content_ok (content : value) :
  content_ok content = true →
  ∃ s, extract_text_from_content py_str content = Ok s.
Proof.
  intros Hok. pose proof (extract_text_from_content_raises content) as H.
  destruct (extract_text_from_content py_str content) as [s|e].
  - exists s. reflexivity.
  - destruct H as [_ H]. congruence.
Qed.

Lemma convert_message_outcome (out : list value) (m : value) :
  match convert_message py_str out m with
  | Ok out' => message_ok m = true ∧ ∃ t, out' = out ++ [t]
  | Raise e => (e = AttributeError ∨ e = TypeError) ∧ message_ok m = false
  end.
Proof.
  destruct m as [| | | | | |d]; try (split; [left|]; reflexivity).
  unfold convert_message. cbn [py_get mbind result_bind message_ok].
  pose proof (extract_text_from_content_raises
                (dict_get d "content" (VStr ""))) as H.
  destruct (extract_text_from_content py_str _) as [c|e];
    cbn [mbind result_bind].
  - split; [exact H|]. eexists. reflexivity.
  - destruct H as [-> H]. split; [right; reflexivity|exact H].
Qed.

Lemma for_each_convert_message_outcome (ms : list value) (out : list value) :
  match for_each (convert_message py_str) ms out with
  | Ok out' =>
      forallb message_ok ms = true ∧
      ∃ ts, out' = out ++ ts ∧ length ts = length ms
  | Raise e =>
      (e = AttributeError ∨ e = TypeError) ∧ forallb message_ok ms = false
  end.
Proof.
  revert out. induction ms as [|m ms IH]; intros out; cbn [for_each forallb].
  - split; [reflexivity|]. exists []. rewrite app_nil_r. split; reflexivity.
  - pose proof (convert_message_outcome out m) as Hm.
    destruct (convert_message py_str out m) as [out1|e];
      cbn [mbind result_bind].
    + destruct Hm as [-> (t & ->)]. cbn [andb].
      specialize (IH (out ++ [t])).
      destruct (for_each _ ms (out ++ [t])) as [out2|e].
      * destruct IH as [Hms (ts & -> & Hlen)]. split; [exact Hms|].
        exists (t :: ts). rewrite <- app_assoc. split; [reflexivity|].
        simpl. rewrite Hlen. reflexivity.
      * exact IH.
    + destruct Hm as [He ->]. split; [exact He|reflexivity].
Qed.

(** X2. On a list of messages [anthropic_messages_to_openai] returns
    exactly when every message is an object whose content flattens; it
    then gives one target message per source message, after the system
    message if [system] is truthy.  Otherwise it raises [AttributeError]
    or [TypeError], and one bad message fails the whole conversion. *)
Theorem anthropic_messages_to_openai_outcome (ms : list value) (system : value) :
  match anthropic_messages_to_openai py_str (VList ms) system with
  | Ok out =>
      forallb message_ok ms = true ∧
      length out = (if truthy system then 1 else 0) + length ms
  | Raise e =>
      (e = AttributeError ∨ e = TypeError) ∧ forallb message_ok ms = false
  end.
Proof.
  unfold anthropic_messages_to_openai. cbn [py_iter mbind result_bind].
  match goal with
  | |- context [for_each _ ms ?o] =>
      pose proof (for_each_convert_message_outcome ms o) as H;
      destruct (for_each (convert_message py_str) ms o) as [out|e]
  end; [|exact H].
  destruct H as [Hok (ts & -> & Hlen)]. split; [exact Hok|].
  rewrite length_app, Hlen. destruct (truthy system); reflexivity.
Qed.

(** X3. A truthy [system] of any type is forwarded as it is: a non-empty
    list of blocks becomes the content of the system message unflattened.
    A falsy one ([None], [""], an empty list) adds no message. *)
Theorem system_forwarded_verbatim (ms : list value) (system : value)
    (out : list value) :
  anthropic_messages_to_openai py_str (VList ms) system = Ok out →
  if truthy system
  then ∃ rest, out = dict [("role", VStr "system"); ("content", system)] :: rest
               ∧ length rest = length ms
  else length out = length ms.
Proof.
  unfold anthropic_messages_to_openai. cbn [py_iter mbind result_bind].
  match goal with
  | |- context [for_each _ ms ?o] =>
      pose proof (for_each_convert_message_outcome ms o) as H;
      destruct (for_each (convert_message py_str) ms o) as [out'|e]
  end; [|discriminate].
  intros [= ->]. destruct H as [_ (ts & -> & Hlen)].
  destruct (truthy system).
  - exists ts. split; [reflexivity|exact Hlen].
  - exact Hlen.
Qed.

End Failures.

(** ** Model table and the listing endpoints *)

Lemma DEFAULT_MODEL_MAP_targets (m target : string) :
  DEFAULT_MODEL_MAP !! m = Some target →
  m ∈ DEFAULT_MODEL_MAP_keys ∧
  target ∈ ["claude-sonet-4-5:latest"; "claude-opus-4-5:latest";
            "claude-haiku-4-5:latest"].
Proof.
  intros Hm%elem_of_list_to_map_2.
  repeat (apply elem_of_cons in Hm as [[= -> ->]|Hm];
          [split; compute_done|]).
  apply elem_of_nil in Hm. destruct Hm.
Qed.

(** X4. Resolution is final: a resolved name is never itself a key of the
    table, so resolving twice is resolving once. *)
Theorem map_model_idempotent (m : string) :
  DEFAULT_MODEL_MAP !! map_model m = None ∧
  map_model (map_model m) = map_model m.
Proof.
  assert (Hnone : DEFAULT_MODEL_MAP !! map_model m = None).
  { unfold map_model, dict_get.
    destruct (DEFAULT_MODEL_MAP !! m) as [target|] eqn:Hm; [|exact Hm].
    apply DEFAULT_MODEL_MAP_targets in Hm as [_ Ht]. cbn [default].
    repeat (apply elem_of_cons in Ht as [->|Ht]; [reflexivity|]).
    apply elem_of_nil in Ht. destruct Ht. }
  split; [exact Hnone|].
  unfold map_model at 1. unfold dict_get. rewrite Hnone. reflexivity.
Qed.

(** X5. [/v1/models] lists the keys of the table, each once, and nothing
    else: the listed ids are a rearrangement of the table's keys.
    [/health] reports their number, and every listed model is one that
    [map_model] rewrites. *)
Theorem list_models_lists_the_table (OLLAMA_BASE_URL : string) :
  ∃ (entries : list value) (ids : list string),
    field "data" list_models = Some (VList entries) ∧
    field "id" <$> entries = Some ∘ VStr <$> ids ∧
    ids ≡ₚ (map_to_list DEFAULT_MODEL_MAP).*1 ∧
    NoDup ids ∧
    (∀ m, m ∈ ids ↔ is_Some (DEFAULT_MODEL_MAP !! m)) ∧
    (∀ m, m ∈ ids → map_model m ≠ m) ∧
    field "available_models" (health OLLAMA_BASE_URL)
    = Some (VInt (Z.of_nat (length entries))).
Proof.
  exists (model_entry <$> DEFAULT_MODEL_MAP_keys), DEFAULT_MODEL_MAP_keys.
  assert (Hperm : DEFAULT_MODEL_MAP_keys ≡ₚ (map_to_list DEFAULT_MODEL_MAP).*1).
  { rewrite DEFAULT_MODEL_MAP_entries. reflexivity. }
  assert (Hkeys : ∀ m, m ∈ DEFAULT_MODEL_MAP_keys
                       ↔ is_Some (DEFAULT_MODEL_MAP !! m)).
  { intros m. rewrite Hperm, <- elem_of_dom, dom_alt.
    rewrite elem_of_list_to_set. reflexivity. }
  split; [reflexivity|]. split; [reflexivity|]. split; [exact Hperm|].
  split; [compute_done|]. split; [exact Hkeys|]. split; [|reflexivity].
  intros m [target Hm]%Hkeys Heq.
  destruct (map_model_idempotent m) as [Hnone _].
  rewrite Heq, Hm in Hnone. discriminate.
Qed.

(** ** The endpoint's outcomes *)

Lemma substring_0_length (n : nat) (s : string) :
  String.length (String.substring 0 n s) = n `min` String.length s.
Proof.
  revert s. induction n as [|n IH]; intros [|c s]; simpl; try reflexivity.
  rewrite IH. reflexivity.
Qed.

Lemma substring_0_prefix (n : nat) (s : string) :
  ∃ rest, s = String.substring 0 n s +:+ rest.
Proof.
  revert s. induction n as [|n IH]; intros [|c s]; simpl.
  - exists "". reflexivity.
  - exists (String c s). reflexivity.
  - exists "". reflexivity.
  - destruct (IH s) as [rest Hrest]. exists rest.
    exact (f_equal (String c) Hrest).
Qed.

Lemma dict_get_Some {A} (d : gmap string A) (k : string) (v dflt : A) :
  d !! k = Some v → dict_get d k dflt = v.
Proof. intros Hk. unfold dict_get. rewrite Hk. reflexivity. Qed.

(** X6. Only the first choice is consulted: the text of a reply with
    several choices is the text of the reply cut down to its first
    choice. *)
Theorem response_text_first_choice (data : gmap string value)
    (first : value) (others : list value) :
  data !! "choices" = Some (VList (first :: others)) →
  response_text (VDict data)
  = response_text (VDict (<["choices" := VList [first]]> data)).
Proof.
  intros Hc. unfold response_text. cbn [py_get mbind result_bind].
  rewrite (dict_get_Some _ _ _ _ Hc), dict_get_insert_eq. reflexivity.
Qed.

(** X7. A ["content"] that is present reaches the reply as it is, whatever
    its type: the default [""] stands in for an absent key only, so a
    [null] content gives a text block whose text is [None]. *)
Theorem translate_response_with_content (hex : string) (model : value)
    (data first message : gmap string value) (others : list value)
    (content input output : value) :
  data !! "choices" = Some (VList (VDict first :: others)) →
  first !! "message" = Some (VDict message) →
  message !! "content" = Some content →
  usage_field (VDict data) "prompt_tokens" = Ok input →
  usage_field (VDict data) "completion_tokens" = Ok output →
  translate_response_with hex model (VDict data)
  = Ok (Body (dict [
      ("id", VStr ("msg_" +:+ String.substring 0 24 hex));
      ("type", VStr "message");
      ("role", VStr "assistant");
      ("model", model);
      ("content", VList [dict [("type", VStr "text"); ("text", content)]]);
      ("stop_reason", VStr "end_turn");
      ("stop_sequence", VNone);
      ("usage", dict [("input_tokens", input); ("output_tokens", output)])
    ])).
Proof.
  intros Hc Hm Ht Hin Hout.
  unfold translate_response_with, response_text, message_response.
  cbn [py_get mbind result_bind].
  rewrite (dict_get_Some _ _ _ _ Hc). cbn [py_index0 py_get mbind result_bind].
  rewrite (dict_get_Some _ _ _ _ Hm). cbn [py_get mbind result_bind].
  rewrite (dict_get_Some _ _ _ _ Ht), Hin. cbn [mbind result_bind].
  rewrite Hout. reflexivity.
Qed.

(** X8. Every reply the response translator builds has type ["message"],
    role ["assistant"], stop reason ["end_turn"], a null stop sequence,
    the requested model, exactly one content block, of type ["text"], and
    an id made of ["msg_"] and the first 24 characters of the UUID's hex
    digits: 28 characters when the UUID gives at least 24. *)
Theorem translate_response_with_invariants (hex : string)
    (model data : value) (r : reply) :
  translate_response_with hex model data = Ok r →
  ∃ (content text : value) (id : string),
    r = Body content ∧
    field "id" content = Some (VStr id) ∧
    id = "msg_" +:+ String.substring 0 24 hex ∧
    (24 ≤ String.length hex → String.length id = 28) ∧
    field "type" content = Some (VStr "message") ∧
    field "role" content = Some (VStr "assistant") ∧
    field "model" content = Some model ∧
    field "content" content
    = Some (VList [dict [("type", VStr "text"); ("text", text)]]) ∧
    response_text data = Ok text ∧
    field "stop_reason" content = Some (VStr "end_turn") ∧
    field "stop_sequence" content = Some VNone.
Proof.
  unfold translate_response_with, message_response.
  destruct (response_text data) as [text|]; [|discriminate].
  cbn [mbind result_bind].
  destruct (usage_field data "prompt_tokens"); [|discriminate].
  cbn [mbind result_bind].
  destruct (usage_field data "completion_tokens"); [|discriminate].
  cbn [mbind result_bind]. intros [= <-].
  eexists _, text, _. repeat (split; [reflexivity|]).
  split; [|repeat (split; [reflexivity|]); reflexivity].
  intros Hlen. rewrite append_length, substring_0_length.
  simpl String.length. lia.
Qed.

Section Outcomes.

Variable py_str : value → string.
Variable OLLAMA_BASE_URL : string.
Variable OLLAMA_API_KEY : string.

Abbreviation handler := (handle_messages py_str OLLAMA_BASE_URL OLLAMA_API_KEY).
Abbreviation backend_call :=
  (completion_call OLLAMA_BASE_URL OLLAMA_API_KEY).

(** X9. The backend is called once when the body parses and translates:
    the one call posts the translated payload as its JSON, to the path
    ["/chat/completions"] under the base URL, with the bearer token and
    the JSON content type as headers.  It is never called otherwise: not a
    second time whatever the first call gave, and not at all when the
    translation raises, which then leaves the endpoint as the same
    exception. *)
Theorem backend_called_once (w : world) :
  match w_request_json w with
  | inl _ => (run w handler).2 = []
  | inr body =>
      match translate_request py_str body with
      | Ok (_, payload) =>
          ∃ c, (run w handler).2 = [c] ∧
               call_json c = payload ∧
               call_url c = OLLAMA_BASE_URL +:+ "/chat/completions" ∧
               call_headers c
               = {[ "Authorization" := "Bearer " +:+ OLLAMA_API_KEY;
                    "Content-Type" := "application/json" ]}
      | Raise e => run w handler = (Raise e, [])
      end
  end.
Proof.
  rewrite run_handle_messages.
  destruct (w_request_json w) as [str_e|body]; [reflexivity|].
  destruct (translate_request py_str body) as [[model payload]|e];
    [|reflexivity].
  eexists. repeat split.
Qed.

(** X10. What the endpoint returns is one of three things: the tuple of
    [{"error": {"type": "invalid_request_error", "message": ...}}] and
    400, only for a body that did not parse and without a backend call;
    the dict [{"type": "error", "error": {"type": "api_error", "message":
    ...}}]; or a dict of type ["message"].  The last two come as a bare
    dict, after the one backend call: no status accompanies a backend
    failure. *)
Theorem reply_shapes (w : world) (r : reply) :
  (run w handler).1 = Ok r →
  (∃ str_e,
     w_request_json w = inl str_e ∧
     r = BodyStatus
           (dict [("error", dict [
              ("type", VStr "invalid_request_error");
              ("message", VStr ("Invalid JSON: " +:+ str_e))])])
           400 ∧
     (run w handler).2 = []) ∨
  (∃ content c,
     r = Body content ∧ (run w handler).2 = [c] ∧
     ((∃ message,
         content = dict [
           ("type", VStr "error");
           ("error", dict [("type", VStr "api_error");
                           ("message", VStr message)])]) ∨
      field "type" content = Some (VStr "message"))).
Proof.
  rewrite run_handle_messages.
  destruct (w_request_json w) as [str_e|body].
  - intros [= <-]. left. eexists. repeat split.
  - destruct (translate_request py_str body) as [[model payload]|e];
      [|discriminate].
    cbn [fst snd]. intros Hr. right.
    destruct (after_post _) as [data|resp|str_e].
    + destruct (translate_response_with_invariants _ _ _ _ Hr)
        as (content & text & id & -> & _ & _ & _ & Htype & _).
      eexists content, _. repeat split. right. exact Htype.
    + injection Hr as <-. eexists _, _. repeat split.
      left. eexists. reflexivity.
    + injection Hr as <-. eexists _, _. repeat split.
      left. eexists. reflexivity.
Qed.

(** X11. A body that parses but is not a JSON object (a list, a string, a
    number, [null]) is not answered with an error envelope: the first
    [body.get] raises [AttributeError], before any backend call. *)
Theorem non_object_body_raises (w : world) (body : value) :
  w_request_json w = inr body →
  (∀ d, body ≠ VDict d) →
  run w handler = (Raise AttributeError, []).
Proof.
  intros Hbody Hobj. rewrite run_handle_messages, Hbody.
  destruct body as [| | | | | |d]; try reflexivity.
  destruct (Hobj d eq_refl).
Qed.

(** X12. A successful status whose body does not decode as JSON is
    reported like a transport failure: the endpoint returns the dict
    [{"type": "error", "error": {"type": "api_error", "message": m}}]
    with [m] made of ["Connection error: "] and the decoder's complaint,
    after the one call with the translated payload. *)
Theorem undecodable_reply_envelope (w : world) (body model payload : value)
    (resp : httpx.Response) (str_e : string) :
  w_request_json w = inr body →
  translate_request py_str body = Ok (model, payload) →
  w_client_post w 0 (backend_call payload) = PostReturned resp →
  (200 ≤ httpx.status_code resp ≤ 299)%Z →
  httpx.json resp = inl str_e →
  ∃ c,
    run w handler
    = (Ok (Body (dict [
         ("type", VStr "error");
         ("error", dict [("type", VStr "api_error");
                         ("message", VStr ("Connection error: " +:+ str_e))])])),
       [c]) ∧
    call_json c = payload.
Proof.
  intros Hbody Hreq Hpost Hstatus Hjson.
  rewrite run_handle_messages, Hbody, Hreq, Hpost.
  unfold after_post, httpx.is_success.
  rewrite bool_decide_eq_true_2 by exact Hstatus. rewrite Hjson.
  eexists. split; reflexivity.
Qed.

(** X13. The translation reads five fields of the body and nothing else:
    any other field (["tools"], ["top_p"], ["metadata"], ...) changes
    neither the payload nor the echoed model. *)
Theorem translate_request_ignores (body : gmap string value)
    (key : string) (v : value) :
  key ∉ translated_fields →
  translate_request py_str (VDict (<[key := v]> body))
  = translate_request py_str (VDict body).
Proof.
  intros Hkey. unfold translate_request, py_get.
  cbn [mbind result_bind]. unfold dict_get.
  rewrite !lookup_insert_ne; [reflexivity|..];
    intros ->; apply Hkey; compute_done.
Qed.

(** X14. The payload of a translated request has exactly the keys
    ["model"], ["messages"], ["max_tokens"], ["temperature"] and
    ["stream"]; ["max_tokens"] and ["temperature"] are the body's own
    values of whatever type, or 4096 and 0.7 when the body has none. *)
Theorem payload_fields (body : gmap string value) (model payload : value) :
  translate_request py_str (VDict body) = Ok (model, payload) →
  ∃ p : gmap string value,
    payload = VDict p ∧
    dom p = {["model"; "messages"; "max_tokens"; "temperature"; "stream"]} ∧
    p !! "max_tokens" = Some (dict_get body "max_tokens" (VInt 4096)) ∧
    p !! "temperature"
    = Some (dict_get body "temperature" (VFloat float_0_7)).
Proof.
  intros (d & target & msgs & [= <-] & _ & _ & _ & ->)%translate_request_inv.
  eexists. split; [reflexivity|]. split; [|split; reflexivity].
  rewrite dom_list_to_map_L. reflexivity.
Qed.

End Outcomes.

(** ** Flattening a concatenation *)

Lemma concat_app (sep : string) (l1 l2 : list string) :
  l1 ≠ [] → l2 ≠ [] →
  String.concat sep (l1 ++ l2)
  = String.concat sep l1 +:+ sep +:+ String.concat sep l2.
Proof.
  intros H1 H2. induction l1 as [|a [|b l1] IH]; [congruence| |].
  - destruct l2 as [|c l2]; [congruence|]. reflexivity.
  - change (String.concat sep ((a :: b :: l1) ++ l2))
      with (a +:+ sep +:+ String.concat sep ((b :: l1) ++ l2)).
    rewrite IH by discriminate.
    change (String.concat sep (a :: b :: l1))
      with (a +:+ sep +:+ String.concat sep (b :: l1)).
    rewrite !append_assoc. reflexivity.
Qed.

Section Concatenation.

Variable py_str : value → string.

(** X15. Flattening distributes over concatenation of content lists: if
    both halves flatten and each contributes some text, the whole flattens
    to the two results with one newline between them; a half that
    contributes no text leaves the other half's result unchanged. *)
Theorem extract_text_from_content_app (xs ys : list value) (sx sy : string) :
  extract_text_from_content py_str (VList xs) = Ok sx →
  extract_text_from_content py_str (VList ys) = Ok sy →
  extract_text_from_content py_str (VList (xs ++ ys))
  = Ok (if bool_decide (foldl extract_item [] xs = []) then sy
        else if bool_decide (foldl extract_item [] ys = []) then sx
        else sx +:+ NL +:+ sy).
Proof.
  unfold extract_text_from_content, str_join.
  rewrite foldl_extract_item_app, as_strs_app.
  destruct (as_strs (foldl extract_item [] xs)) as [tx|] eqn:Ex;
    [|discriminate].
  destruct (as_strs (foldl extract_item [] ys)) as [ty|] eqn:Ey;
    [|discriminate].
  cbn [mbind result_bind]. intros [= <-] [= <-].
  apply as_strs_inv in Ex, Ey. rewrite Ex, Ey. f_equal.
  destruct tx as [|a tx]; [reflexivity|].
  destruct ty as [|b ty].
  - rewrite app_nil_r. reflexivity.
  - rewrite !fmap_cons.
    rewrite !bool_decide_eq_false_2 by discriminate.
    apply concat_app; discriminate.
Qed.

End Concatenation.

(** * tool-creator: the name checks *)

(** ** Matching and languages *)

Lemma lang_Void_inv s : ¬ lang Void s.
Proof. inversion 1. Qed.

Lemma lang_Eps_inv s : lang Eps s → s = "".
Proof. inversion 1. reflexivity. Qed.

Lemma lang_Lit_inv c s : lang (Lit c) s → s = String c "".
Proof. inversion 1. reflexivity. Qed.

Lemma lang_Range_inv lo hi s :
  lang (Range lo hi) s → ∃ c, s = String c "" ∧ in_range lo hi c = true.
Proof. inversion 1; subst. eauto. Qed.

Lemma lang_Alt_inv r1 r2 s : lang (Alt r1 r2) s → lang r1 s ∨ lang r2 s.
Proof. inversion 1; subst; auto. Qed.

Lemma lang_Seq_inv r1 r2 s :
  lang (Seq r1 r2) s → ∃ s1 s2, s = s1 +:+ s2 ∧ lang r1 s1 ∧ lang r2 s2.
Proof. inversion 1; subst. eauto. Qed.

Lemma append_nil_inv (s1 s2 : string) : s1 +:+ s2 = "" → s1 = "" ∧ s2 = "".
Proof. destruct s1; [intros H; split; [reflexivity|exact H]|discriminate]. Qed.

Lemma nullable_lang r : nullable r = true ↔ lang r "".
Proof.
  induction r as [| |c|lo hi|r1 IH1 r2 IH2|r1 IH1 r2 IH2|r IH]; simpl.
  - split; [discriminate|]. intros []%lang_Void_inv.
  - split; [constructor|reflexivity].
  - split; [discriminate|]. intros [=]%lang_Lit_inv.
  - split; [discriminate|]. intros (c & [=] & _)%lang_Range_inv.
  - rewrite orb_true_iff, IH1, IH2. split.
    + intros [H|H]; [apply lang_Alt_l|apply lang_Alt_r]; exact H.
    + apply lang_Alt_inv.
  - rewrite andb_true_iff, IH1, IH2. split.
    + intros [H1 H2]. exact (lang_Seq _ _ "" "" H1 H2).
    + intros (s1 & s2 & [-> ->]%eq_sym%append_nil_inv & H1 & H2)%lang_Seq_inv.
      auto.
  - split; [constructor|reflexivity].
Qed.

Lemma lang_Star_cons_inv r c s :
  lang (Star r) (String c s) →
  ∃ s1 s2, s = s1 +:+ s2 ∧ lang r (String c s1) ∧ lang (Star r) s2.
Proof.
  intros H. remember (Star r) as r' eqn:Er.
  remember (String c s) as cs eqn:Es.
  induction H as [| | | | | | |r0 s1 s2 H1 _ H2 IH2]; try discriminate.
  injection Er as ->.
  destruct s1 as [|c1 s1].
  - apply IH2; [reflexivity|exact Es].
  - injection Es as -> <-. exists s1, s2. auto.
Qed.

Lemma deriv_lang r c s : lang (deriv c r) s ↔ lang r (String c s).
Proof.
  revert s. induction r as [| |c'|lo hi|r1 IH1 r2 IH2|r1 IH1 r2 IH2|r IH];
    intros s; simpl.
  - split; intros []%lang_Void_inv.
  - split; [intros []%lang_Void_inv|intros [=]%lang_Eps_inv].
  - case_bool_decide as Hc.
    + subst c'. split.
      * intros ->%lang_Eps_inv. constructor.
      * intros [= ->]%lang_Lit_inv. constructor.
    + split; [intros []%lang_Void_inv|].
      intros [= -> _]%lang_Lit_inv. destruct Hc. reflexivity.
  - destruct (in_range lo hi c) eqn:Hr.
    + split.
      * intros ->%lang_Eps_inv. constructor. exact Hr.
      * intros (c0 & [= <- ->] & _)%lang_Range_inv. constructor.
    + split; [intros []%lang_Void_inv|].
      intros (c0 & [= <- ->] & Hc)%lang_Range_inv. congruence.
  - split.
    + intros [H|H]%lang_Alt_inv;
        [apply lang_Alt_l, IH1|apply lang_Alt_r, IH2]; exact H.
    + intros [H|H]%lang_Alt_inv;
        [apply lang_Alt_l, IH1|apply lang_Alt_r, IH2]; exact H.
  - assert (Hseq : ∀ t, lang (Seq (deriv c r1) r2) t →
                        lang (Seq r1 r2) (String c t)).
    { intros t (s1 & s2 & -> & H1 & H2)%lang_Seq_inv.
      apply (lang_Seq r1 r2 (String c s1) s2); [apply IH1|]; assumption. }
    assert (Hinv : ∀ t, lang (Seq r1 r2) (String c t) →
              lang (Seq (deriv c r1) r2) t
              ∨ (lang r1 "" ∧ lang r2 (String c t))).
    { intros t (s1 & s2 & E & H1 & H2)%lang_Seq_inv.
      destruct s1 as [|c1 s1].
      - right. change ("" +:+ s2) with s2 in E. subst s2. auto.
      - injection E as <- ->. left. constructor; [apply IH1|]; assumption. }
    destruct (nullable r1) eqn:Hn.
    + split.
      * intros [H|H]%lang_Alt_inv; [apply Hseq, H|].
        apply (lang_Seq r1 r2 "" (String c s));
          [apply nullable_lang, Hn|apply IH2, H].
      * intros [H|[_ H]]%Hinv;
          [apply lang_Alt_l, H|apply lang_Alt_r, IH2, H].
    + split; [apply Hseq|].
      intros [H|[H _]]%Hinv; [exact H|].
      apply nullable_lang in H. congruence.
  - split.
    + intros (s1 & s2 & -> & H1 & H2)%lang_Seq_inv.
      apply (lang_Star_cons r (String c s1) s2); [apply IH|]; assumption.
    + intros (s1 & s2 & -> & H1 & H2)%lang_Star_cons_inv.
      constructor; [apply IH|]; assumption.
Qed.

Lemma fullmatch_lang r s : fullmatch r s = true ↔ lang r s.
Proof.
  revert r. induction s as [|c s IH]; intros r; simpl.
  - apply nullable_lang.
  - rewrite IH. apply deriv_lang.
Qed.

(** ** The patterns, in words *)


Lemma all_chars_app p a b :
  all_chars p (a +:+ b) = all_chars p a && all_chars p b.
Proof.
  induction a as [|c a IH]; [reflexivity|].
  change (all_chars p (String c a +:+ b)) with (p c && all_chars p (a +:+ b)).
  rewrite IH. cbn [all_chars]. rewrite andb_assoc. reflexivity.
Qed.

Lemma all_chars_impl (p q : ascii → bool) s :
  (∀ c, p c = true → q c = true) → all_chars p s = true → all_chars q s = true.
Proof.
  intros Hpq. induction s as [|c s IH]; [reflexivity|]. cbn [all_chars].
  intros [Hc Hs]%andb_prop. rewrite (Hpq c Hc), (IH Hs). reflexivity.
Qed.

Lemma lang_Star_ind r (P : string → Prop) :
  P "" →
  (∀ s1 s2, lang r s1 → lang (Star r) s2 → P s2 → P (s1 +:+ s2)) →
  ∀ s, lang (Star r) s → P s.
Proof.
  intros Hnil Hcons s H. remember (Star r) as r' eqn:Er.
  induction H as [| | | | | |r0|r0 s1 s2 H1 _ H2 IH2]; try discriminate.
  - exact Hnil.
  - injection Er as ->. apply Hcons; [exact H1|exact H2|].
    apply IH2; [reflexivity|exact Hcons].
Qed.

Lemma lang_class (r : regex) (p : ascii → bool) :
  (∀ s, lang r s ↔ ∃ c, s = String c "" ∧ p c = true) →
  (∀ s, lang (Star r) s ↔ all_chars p s = true) ∧
  (∀ s, lang (Plus r) s ↔ s ≠ "" ∧ all_chars p s = true).
Proof.
  intros Hr.
  assert (Hstar : ∀ s, lang (Star r) s ↔ all_chars p s = true).
  { intros s. split.
    - revert s. apply lang_Star_ind; [reflexivity|].
      intros s1 s2 (c & -> & Hc)%Hr _ IH. cbn [all_chars append].
      change (String c "" +:+ s2) with (String c s2). cbn [all_chars].
      rewrite Hc, IH. reflexivity.
    - induction s as [|c s IH]; [constructor|]. cbn [all_chars].
      intros [Hc Hs]%andb_prop.
      apply (lang_Star_cons r (String c "") s); [|apply IH, Hs].
      apply Hr. eauto. }
  split; [exact Hstar|]. intros s. unfold Plus. split.
  - intros (s1 & s2 & -> & (c & -> & Hc)%Hr & H2%Hstar)%lang_Seq_inv.
    split; [discriminate|].
    change (String c "" +:+ s2) with (String c s2). cbn [all_chars].
    rewrite Hc, H2. reflexivity.
  - intros [Hne Hs]. destruct s as [|c s]; [congruence|].
    cbn [all_chars] in Hs. apply andb_prop in Hs as [Hc Hs].
    apply (lang_Seq r (Star r) (String c "") s); [|apply Hstar, Hs].
    apply Hr. eauto.
Qed.

Lemma lang_alnum s :
  lang (Alt lower digit) s ↔ ∃ c, s = String c "" ∧ is_alnum c = true.
Proof.
  unfold is_alnum. split.
  - intros [(c & -> & Hc)%lang_Range_inv|(c & -> & Hc)%lang_Range_inv]%lang_Alt_inv;
      exists c; rewrite Hc; split; try reflexivity. apply orb_true_r.
  - intros (c & -> & [Hc|Hc]%orb_prop);
      [apply lang_Alt_l|apply lang_Alt_r]; constructor; exact Hc.
Qed.

Lemma lang_word s : lang (Plus (Alt lower digit)) s ↔ word s.
Proof. apply (lang_class _ is_alnum lang_alnum). Qed.

Lemma concat_hyphenated (w : string) (ws : list string) :
  String.concat "-" (w :: ws) = w +:+ hyphenated ws.
Proof.
  revert w. induction ws as [|w' ws IH]; intros w.
  - symmetry. apply append_empty_r.
  - change (String.concat "-" (w :: w' :: ws))
      with (w +:+ "-" +:+ String.concat "-" (w' :: ws)).
    rewrite IH. reflexivity.
Qed.

Lemma lang_tail s :
  lang (Star (Seq (Lit "-") (Plus (Alt lower digit)))) s
  ↔ ∃ ws, Forall word ws ∧ s = hyphenated ws.
Proof.
  split.
  - revert s. apply lang_Star_ind.
    + exists []. split; [constructor|reflexivity].
    + intros s1 s2 (h & w & -> & ->%lang_Lit_inv & Hw%lang_word)%lang_Seq_inv
        _ (ws & Hws & ->).
      exists (w :: ws). split; [constructor; assumption|].
      cbn [hyphenated foldr]. rewrite append_assoc. reflexivity.
  - intros (ws & Hws & ->). induction Hws as [|w ws Hw _ IH]; [constructor|].
    cbn [hyphenated foldr]. rewrite <- append_assoc.
    apply lang_Star_cons; [|exact IH].
    apply (lang_Seq (Lit "-") _ "-" w); [constructor|apply lang_word, Hw].
Qed.

Lemma lang_TOOL_NAME_RE s : lang TOOL_NAME_RE s ↔ kebab s.
Proof.
  unfold TOOL_NAME_RE, kebab. split.
  - intros (w & t & -> & Hw%lang_word & (ws & Hws & ->)%lang_tail)%lang_Seq_inv.
    exists w, ws. split; [constructor; assumption|].
    symmetry. apply concat_hyphenated.
  - intros (w & ws & Hws & ->). rewrite concat_hyphenated.
    apply Forall_cons in Hws as [Hw Hws].
    constructor; [apply lang_word, Hw|apply lang_tail; eauto].
Qed.

Lemma chomp_app t : chomp (t +:+ NL) = Some t.
Proof.
  induction t as [|c t IH]; [reflexivity|].
  change (String c t +:+ NL) with (String c (t +:+ NL)).
  cbn [chomp]. rewrite IH. destruct t; reflexivity.
Qed.

Lemma chomp_inv s t : chomp s = Some t → s = t +:+ NL.
Proof.
  revert t. induction s as [|c s IH]; intros t; [discriminate|].
  cbn [chomp]. destruct s as [|c' s].
  - case_bool_decide as Hc; [|discriminate]. intros [= <-]. subst c.
    reflexivity.
  - destruct (chomp (String c' s)) as [t'|]; [|discriminate].
    intros [= <-]. rewrite (IH t' eq_refl). reflexivity.
Qed.

Lemma chomp_Some s t : chomp s = Some t ↔ s = t +:+ NL.
Proof. split; [apply chomp_inv|intros ->; apply chomp_app]. Qed.

Lemma anchored_match_lang r s :
  anchored_match r s = true ↔ lang r s ∨ ∃ t, s = t +:+ NL ∧ lang r t.
Proof.
  unfold anchored_match. rewrite orb_true_iff, fullmatch_lang.
  split; (intros [H|H]; [left; exact H|right]).
  - destruct (chomp s) as [t|] eqn:E; [|discriminate].
    exists t. split; [apply chomp_Some, E|apply fullmatch_lang, H].
  - destruct H as (t & -> & H). rewrite chomp_app.
    apply fullmatch_lang, H.
Qed.

Lemma lang_module_char s :
  lang (Alt lower (Alt digit (Lit "_"))) s
  ↔ ∃ c, s = String c "" ∧ is_module_char c = true.
Proof.
  unfold is_module_char. split.
  - intros [(c & -> & Hc)%lang_Range_inv
           |[(c & -> & Hc)%lang_Range_inv| ->%lang_Lit_inv]%lang_Alt_inv]
           %lang_Alt_inv; eexists; (split; [reflexivity|]).
    + rewrite Hc. reflexivity.
    + rewrite Hc. apply orb_true_r.
    + reflexivity.
  - intros (c & -> & [Hc|[Hc|Hc]%orb_prop]%orb_prop).
    + apply lang_Alt_l. constructor. exact Hc.
    + apply lang_Alt_r, lang_Alt_l. constructor. exact Hc.
    + apply bool_decide_eq_true in Hc as ->.
      apply lang_Alt_r, lang_Alt_r. constructor.
Qed.

Lemma lang_MODULE_NAME_RE s :
  lang MODULE_NAME_RE s
  ↔ ∃ c s', s = String c s' ∧
            (is_lower c || bool_decide (c = "_"%char)) = true ∧
            all_chars is_module_char s' = true.
Proof.
  unfold MODULE_NAME_RE.
  destruct (lang_class _ is_module_char lang_module_char) as [Hstar _].
  split.
  - intros (s1 & s2 & -> & H1 & H2%Hstar)%lang_Seq_inv.
    apply lang_Alt_inv in H1 as [(c & -> & Hc)%lang_Range_inv| ->%lang_Lit_inv];
      eexists _, s2; (split; [reflexivity|]); split; try exact H2.
    + unfold is_lower. rewrite Hc. reflexivity.
    + reflexivity.
  - intros (c & s' & -> & Hc & Hs').
    apply (lang_Seq _ _ (String c "") s'); [|apply Hstar, Hs'].
    apply orb_prop in Hc as [Hc|Hc].
    + apply lang_Alt_l. constructor. exact Hc.
    + apply bool_decide_eq_true in Hc as ->. apply lang_Alt_r. constructor.
Qed.

Lemma hyphenated_cons (w : string) (ws : list string) :
  hyphenated (w :: ws) = String "-" (w +:+ hyphenated ws).
Proof. reflexivity. Qed.

Lemma all_chars_hyphenated (ws : list string) :
  Forall word ws → all_chars is_kebab_char (hyphenated ws) = true.
Proof.
  induction 1 as [|w ws [_ Hw] _ IH]; [reflexivity|].
  rewrite hyphenated_cons. cbn [all_chars]. rewrite all_chars_app, IH.
  rewrite (all_chars_impl is_alnum is_kebab_char w); [reflexivity| |exact Hw].
  intros c Hc. unfold is_kebab_char. rewrite Hc. reflexivity.
Qed.

(** A kebab-case name starts with a letter or digit and holds nothing but
    letters, digits and hyphens. *)
Lemma kebab_chars s :
  kebab s →
  ∃ c s', s = String c s' ∧ is_alnum c = true ∧
          all_chars is_kebab_char s' = true.
Proof.
  intros (w & ws & [[Hne Hw] Hws]%Forall_cons & ->).
  rewrite concat_hyphenated. destruct w as [|c w]; [congruence|].
  cbn [all_chars] in Hw. apply andb_prop in Hw as [Hc Hw].
  exists c, (w +:+ hyphenated ws). split; [reflexivity|]. split; [exact Hc|].
  rewrite all_chars_app, all_chars_hyphenated by exact Hws.
  rewrite (all_chars_impl is_alnum is_kebab_char w); [reflexivity| |exact Hw].
  intros c' Hc'. unfold is_kebab_char. rewrite Hc'. reflexivity.
Qed.

Lemma kebab_all_chars s : kebab s → all_chars is_kebab_char s = true.
Proof.
  intros (c & s' & -> & Hc & Hs')%kebab_chars. cbn [all_chars].
  unfold is_kebab_char at 1. rewrite Hc, Hs'. reflexivity.
Qed.

Lemma kebab_skill s : kebab s → kebab (s +:+ "-skill").
Proof.
  intros (w & ws & Hws & ->). exists w, (ws ++ ["skill"]). split.
  - rewrite app_comm_cons. apply Forall_app. split; [exact Hws|].
    repeat constructor. discriminate.
  - rewrite app_comm_cons, concat_app by discriminate. reflexivity.
Qed.

Lemma replace_hyphens_module s :
  all_chars is_kebab_char s = true →
  all_chars is_module_char (replace_char "-" "_" s) = true.
Proof.
  induction s as [|c s IH]; [reflexivity|]. cbn [all_chars replace_char].
  intros [Hc Hs]%andb_prop. rewrite (IH Hs), andb_true_r.
  case_bool_decide as Hh; [reflexivity|].
  unfold is_kebab_char, is_alnum in Hc. unfold is_module_char.
  apply orb_prop in Hc as [[Hc|Hc]%orb_prop|Hc]; rewrite ?Hc.
  - reflexivity.
  - apply orb_true_r.
  - apply bool_decide_eq_true in Hc. contradiction.
Qed.

Lemma no_final_newline (s t : string) : s +:+ "-skill" ≠ t +:+ NL.
Proof.
  intros E. assert (H : chomp (s +:+ "-skill") = None).
  { clear E. induction s as [|c s IH]; [reflexivity|].
    change (String c s +:+ "-skill") with (String c (s +:+ "-skill")).
    cbn [chomp]. rewrite IH. destruct s; reflexivity. }
  rewrite E, chomp_app in H. discriminate.
Qed.

(** ** What the checks accept *)

(** X16. The tool-name pattern accepts the kebab-case names (lowercase
    letters and digits in words joined by single hyphens) and, because
    [$] also matches before a final newline, each such name followed by
    one newline; it accepts nothing else. *)
Theorem tool_name_pattern (s : string) :
  anchored_match TOOL_NAME_RE s = true
  ↔ kebab s ∨ ∃ t, s = t +:+ NL ∧ kebab t.
Proof.
  rewrite anchored_match_lang, lang_TOOL_NAME_RE.
  split; (intros [H|(t & -> & H)]; [left; exact H|right; exists t]);
    (split; [reflexivity|]); apply lang_TOOL_NAME_RE, H.
Qed.

(** X17. [validate_and_derive] reports ["all_valid"] exactly for the
    kebab-case names that start with a letter: the skill-name check rules
    out the final newline that the tool-name check lets through, and the
    module-name check rules out a leading digit. *)
Theorem validate_and_derive_all_valid (tool_name : string) :
  field "all_valid" (validate_and_derive tool_name) = Some (VBool true)
  ↔ kebab tool_name ∧
    ∃ c rest, tool_name = String c rest ∧ is_lower c = true.
Proof.
  change (field "all_valid" (validate_and_derive tool_name))
    with (Some (VBool
            (anchored_match TOOL_NAME_RE tool_name
             && anchored_match MODULE_NAME_RE (replace_char "-" "_" tool_name)
             && anchored_match TOOL_NAME_RE (tool_name +:+ "-skill")))).
  split.
  - intros [= Hall].
    apply andb_prop in Hall as [[Htool Hmodule]%andb_prop Hskill].
    apply tool_name_pattern in Hskill as [Hskill|(t & E & _)];
      [|destruct (no_final_newline _ _ E)].
    apply kebab_all_chars in Hskill. rewrite all_chars_app in Hskill.
    apply andb_prop in Hskill as [Hchars _].
    apply tool_name_pattern in Htool as [Htool|(t & -> & _)]; cycle 1.
    { rewrite all_chars_app in Hchars.
      apply andb_prop in Hchars as [_ [=]]. }
    split; [exact Htool|].
    destruct (kebab_chars _ Htool) as (c & rest & -> & Hc & _).
    exists c, rest. split; [reflexivity|].
    assert (Hnot : bool_decide (c = "-"%char) = false).
    { case_bool_decide as Hh; [subst c; discriminate|reflexivity]. }
    cbn [replace_char] in Hmodule. rewrite Hnot in Hmodule.
    assert (Hfirst : (is_lower c || bool_decide (c = "_"%char)) = true).
    { apply anchored_match_lang in Hmodule
        as [(c0 & s0 & [= <- _] & H0 & _)%lang_MODULE_NAME_RE
           |(t & E & (c0 & s0 & -> & H0 & _)%lang_MODULE_NAME_RE)];
        [exact H0|].
      injection E as ->. exact H0. }
    apply orb_prop in Hfirst as [Hl|Hu]; [exact Hl|].
    apply bool_decide_eq_true in Hu. subst c. discriminate.
  - intros [Hkebab (c & rest & -> & Hc)]. do 2 f_equal.
    apply andb_true_iff. split; [apply andb_true_iff; split|].
    + apply tool_name_pattern. left. exact Hkebab.
    + apply anchored_match_lang. left. apply lang_MODULE_NAME_RE.
      pose proof (kebab_all_chars _ Hkebab) as Hchars.
      cbn [all_chars] in Hchars. apply andb_prop in Hchars as [_ Hrest].
      cbn [replace_char].
      assert (Hnot : bool_decide (c = "-"%char) = false).
      { case_bool_decide as Hh; [subst c; discriminate|reflexivity]. }
      rewrite Hnot. eexists _, _. split; [reflexivity|].
      split; [rewrite Hc; reflexivity|].
      apply replace_hyphens_module, Hrest.
    + apply tool_name_pattern. left. apply kebab_skill, Hkebab.
Qed.

(** X18. The derived module name has the length of the tool name and no
    hyphen, and is the tool name itself when that has none. *)
Theorem module_name_derived (tool_name : string) :
  ∃ module_name,
    field "module_name" (validate_and_derive tool_name)
    = Some (VStr module_name) ∧
    String.length module_name = String.length tool_name ∧
    all_chars (λ c, negb (bool_decide (c = "-"%char))) module_name = true ∧
    (all_chars (λ c, negb (bool_decide (c = "-"%char))) tool_name = true →
     module_name = tool_name).
Proof.
  exists (replace_char "-" "_" tool_name). split; [reflexivity|].
  induction tool_name as [|c s (Hlen & Hno & Hid)];
    [repeat split|].
  cbn [replace_char String.length all_chars]. rewrite Hlen, Hno.
  split; [reflexivity|]. destruct (decide (c = "-"%char)) as [->|Hc].
  - split; [reflexivity|]. discriminate.
  - rewrite !(bool_decide_eq_false_2 _ Hc). split; [reflexivity|].
    cbn [negb andb]. intros Hs. rewrite (Hid Hs). reflexivity.
Qed.

(** X19. The two scripts agree: the validation in [apply_template.py]
    lets a tool name through exactly when [validate_and_derive] reports
    it ["all_valid"]; otherwise it exits with the message of the first
    check that fails, the tool name's before the module name's before the
    skill name's. *)
Theorem main_validate_agrees (tool_name : string) :
  (main_validate tool_name = Returns
   ↔ field "all_valid" (validate_and_derive tool_name) = Some (VBool true)) ∧
  (field "tool_valid" (validate_and_derive tool_name) = Some (VBool false) →
   main_validate tool_name
   = SystemExit
       "Invalid tool name. Use kebab-case, letters/numbers only, e.g. asset-cli.") ∧
  (field "tool_valid" (validate_and_derive tool_name) = Some (VBool true) →
   field "module_valid" (validate_and_derive tool_name) = Some (VBool false) →
   main_validate tool_name
   = SystemExit
       "Invalid module name. Use snake_case, letters/numbers/underscore, and start with a letter or underscore.") ∧
  (field "tool_valid" (validate_and_derive tool_name) = Some (VBool true) →
   field "module_valid" (validate_and_derive tool_name) = Some (VBool true) →
   field "skill_valid" (validate_and_derive tool_name) = Some (VBool false) →
   main_validate tool_name
   = SystemExit
       "Invalid skill name. Use kebab-case, letters/numbers only, e.g. asset-cli-skill.").
Proof.
  change (field "all_valid" (validate_and_derive tool_name))
    with (Some (VBool
            (anchored_match TOOL_NAME_RE tool_name
             && anchored_match MODULE_NAME_RE (replace_char "-" "_" tool_name)
             && anchored_match TOOL_NAME_RE (tool_name +:+ "-skill")))).
  change (field "tool_valid" (validate_and_derive tool_name))
    with (Some (VBool (anchored_match TOOL_NAME_RE tool_name))).
  change (field "module_valid" (validate_and_derive tool_name))
    with (Some (VBool (anchored_match MODULE_NAME_RE
                         (replace_char "-" "_" tool_name)))).
  change (field "skill_valid" (validate_and_derive tool_name))
    with (Some (VBool (anchored_match TOOL_NAME_RE
                         (tool_name +:+ "-skill")))).
  unfold main_validate, validate_tool_name, validate_module_name,
    validate_skill_name.
  destruct (anchored_match TOOL_NAME_RE tool_name);
    destruct (anchored_match MODULE_NAME_RE _);
    destruct (anchored_match TOOL_NAME_RE (tool_name +:+ "-skill"));
    cbn [negb and_then andb]; repeat split; congruence.
Qed.

(** The patterns at work. *)
Example name_patterns_examples :
  anchored_match TOOL_NAME_RE "asset-cli" = true ∧
  anchored_match TOOL_NAME_RE ("asset-cli" +:+ NL) = true ∧
  anchored_match TOOL_NAME_RE "asset--cli" = false ∧
  anchored_match TOOL_NAME_RE "Asset" = false ∧
  anchored_match TOOL_NAME_RE "" = false ∧
  anchored_match TOOL_NAME_RE "9lives" = true ∧
  anchored_match MODULE_NAME_RE "9lives" = false ∧
  anchored_match MODULE_NAME_RE "asset_cli" = true.
Proof. repeat split. Qed.

(** ** The further theorems at sample inputs *)

Lemma system_forwarded_verbatim_witness :
  ∃ rest,
    [dict [("role", VStr "system");
           ("content", VList [dict [("type", VStr "text");
                                    ("text", VStr "be terse")]])];
     dict [("role", VStr "user"); ("content", VStr "hi")]]
    = dict [("role", VStr "system");
            ("content", VList [dict [("type", VStr "text");
                                     ("text", VStr "be terse")]])] :: rest
    ∧ length rest = 1.
Proof.
  exact (system_forwarded_verbatim sample_str
    [dict [("role", VStr "user"); ("content", VStr "hi")]]
    (VList [dict [("type", VStr "text"); ("text", VStr "be terse")]])
    _ eq_refl).
Defined.

Lemma list_models_lists_the_table_witness :
  is_Some (DEFAULT_MODEL_MAP !! "claude-opus-4-5") ∧
  map_model "claude-opus-4-5" ≠ "claude-opus-4-5".
Proof.
  destruct (list_models_lists_the_table default_base_url)
    as (entries & ids & _ & _ & Hperm & _ & Hkeys & Hrewritten & _).
  assert (Hin : "claude-opus-4-5" ∈ ids).
  { rewrite Hperm. compute_done. }
  split.
  - apply (proj1 (Hkeys "claude-opus-4-5")), Hin.
  - apply (Hrewritten "claude-opus-4-5"), Hin.
Defined.

Lemma response_text_first_choice_witness :
  response_text
    (dict [("choices", VList [dict [("message", dict [("content", VStr "a")])];
                              dict [("message", dict [("content", VStr "b")])]])])
  = response_text
      (VDict (<["choices" :=
                  VList [dict [("message", dict [("content", VStr "a")])]]]>
                (list_to_map
                   [("choices",
                     VList [dict [("message", dict [("content", VStr "a")])];
                            dict [("message", dict [("content", VStr "b")])]])]))).
Proof.
  exact (response_text_first_choice
    (list_to_map
       [("choices",
         VList [dict [("message", dict [("content", VStr "a")])];
                dict [("message", dict [("content", VStr "b")])]])])
    (dict [("message", dict [("content", VStr "a")])])
    [dict [("message", dict [("content", VStr "b")])]] eq_refl).
Defined.

Lemma translate_response_with_content_witness :
  translate_response_with "0123456789abcdef0123456789abcdef" (VStr "m")
    (dict [("choices", VList [dict [("message", dict [("content", VNone)])]])])
  = Ok (Body (dict [
      ("id", VStr "msg_0123456789abcdef01234567");
      ("type", VStr "message");
      ("role", VStr "assistant");
      ("model", VStr "m");
      ("content", VList [dict [("type", VStr "text"); ("text", VNone)]]);
      ("stop_reason", VStr "end_turn");
      ("stop_sequence", VNone);
      ("usage", dict [("input_tokens", VInt 0); ("output_tokens", VInt 0)])
    ])).
Proof.
  exact (translate_response_with_content
    "0123456789abcdef0123456789abcdef" (VStr "m")
    (list_to_map
       [("choices", VList [dict [("message", dict [("content", VNone)])]])])
    (list_to_map [("message", dict [("content", VNone)])])
    (list_to_map [("content", VNone)]) [] VNone (VInt 0) (VInt 0)
    eq_refl eq_refl eq_refl eq_refl eq_refl).
Defined.

Lemma translate_response_with_invariants_witness :
  ∃ (content text : value) (id : string),
    Body (dict [
      ("id", VStr "msg_0123456789abcdef01234567");
      ("type", VStr "message");
      ("role", VStr "assistant");
      ("model", VStr "m");
      ("content", VList [dict [("type", VStr "text"); ("text", VStr "hi")]]);
      ("stop_reason", VStr "end_turn");
      ("stop_sequence", VNone);
      ("usage", dict [("input_tokens", VInt 3); ("output_tokens", VInt 1)])
    ]) = Body content ∧
    field "id" content = Some (VStr id) ∧
    id = "msg_" +:+ String.substring 0 24 "0123456789abcdef0123456789abcdef" ∧
    (24 ≤ String.length "0123456789abcdef0123456789abcdef" →
     String.length id = 28) ∧
    field "type" content = Some (VStr "message") ∧
    field "role" content = Some (VStr "assistant") ∧
    field "model" content = Some (VStr "m") ∧
    field "content" content
    = Some (VList [dict [("type", VStr "text"); ("text", text)]]) ∧
    response_text sample_data = Ok text ∧
    field "stop_reason" content = Some (VStr "end_turn") ∧
    field "stop_sequence" content = Some VNone.
Proof.
  exact (translate_response_with_invariants
    "0123456789abcdef0123456789abcdef" (VStr "m") sample_data _ eq_refl).
Defined.

Lemma reply_shapes_witness :
  ∃ content c,
    Body (dict [("type", VStr "error");
                ("error", dict [("type", VStr "api_error");
                                ("message", VStr "Ollama error: 500 - oops")])])
    = Body content ∧
    (run (sample_world (PostReturned sample_failure))
       (handle_messages sample_str default_base_url default_api_key)).2
    = [c] ∧
    ((∃ message,
        content = dict [
          ("type", VStr "error");
          ("error", dict [("type", VStr "api_error");
                          ("message", VStr message)])]) ∨
     field "type" content = Some (VStr "message")).
Proof.
  destruct (reply_shapes sample_str default_base_url default_api_key
    (sample_world (PostReturned sample_failure))
    (Body (dict [("type", VStr "error");
                 ("error", dict [("type", VStr "api_error");
                                 ("message",
                                  VStr "Ollama error: 500 - oops")])]))
    eq_refl)
    as [(str_e & [=] & _)|H].
  exact H.
Defined.

Lemma non_object_body_raises_witness :
  run {| w_request_json := inr (VList [VInt 1; VInt 2]);
         w_client_post := λ _ _, PostReturned sample_success;
         w_uuid4_hex := "0123456789abcdef0123456789abcdef" |}
    (handle_messages sample_str default_base_url default_api_key)
  = (Raise AttributeError, []).
Proof.
  apply (non_object_body_raises sample_str default_base_url default_api_key
    {| w_request_json := inr (VList [VInt 1; VInt 2]);
       w_client_post := λ _ _, PostReturned sample_success;
       w_uuid4_hex := "0123456789abcdef0123456789abcdef" |}
    (VList [VInt 1; VInt 2]) eq_refl).
  discriminate.
Defined.

Lemma undecodable_reply_envelope_witness :
  ∃ c,
    run (sample_world (PostReturned {|
           httpx.status_code := 200;
           httpx.text := "<html>";
           httpx.json := inl "Expecting value: line 1 column 1 (char 0)" |}))
      (handle_messages sample_str default_base_url default_api_key)
    = (Ok (Body (dict [
         ("type", VStr "error");
         ("error", dict [
            ("type", VStr "api_error");
            ("message",
             VStr ("Connection error: "
                   +:+ "Expecting value: line 1 column 1 (char 0)"))])])),
       [c]) ∧
    call_json c = sample_payload.
Proof.
  apply (undecodable_reply_envelope sample_str default_base_url
    default_api_key
    (sample_world (PostReturned {|
       httpx.status_code := 200;
       httpx.text := "<html>";
       httpx.json := inl "Expecting value: line 1 column 1 (char 0)" |}))
    (VDict sample_body) (VStr "claude-haiku-4-5-20250514")
    sample_payload _ "Expecting value: line 1 column 1 (char 0)"
    eq_refl eq_refl eq_refl); [simpl; lia|reflexivity].
Defined.

Lemma translate_request_ignores_witness :
  translate_request sample_str
    (VDict (<["tools" := VList [dict [("name", VStr "bash")]]]> sample_body))
  = translate_request sample_str (VDict sample_body).
Proof.
  apply (translate_request_ignores sample_str sample_body "tools"
    (VList [dict [("name", VStr "bash")]])).
  compute_done.
Defined.

Lemma payload_fields_witness :
  ∃ p : gmap string value,
    sample_payload = VDict p ∧
    dom p = {["model"; "messages"; "max_tokens"; "temperature"; "stream"]} ∧
    p !! "max_tokens" = Some (dict_get sample_body "max_tokens" (VInt 4096)) ∧
    p !! "temperature"
    = Some (dict_get sample_body "temperature" (VFloat float_0_7)).
Proof.
  exact (payload_fields sample_str sample_body
    (VStr "claude-haiku-4-5-20250514") sample_payload eq_refl).
Defined.

Lemma extract_text_from_content_app_witness :
  extract_text_from_content sample_str
    (VList ([VStr "a"; dict [("type", VStr "image")]]
            ++ [dict [("text", VStr "b")]; VStr "c"]))
  = Ok ("a" +:+ NL +:+ "b" +:+ NL +:+ "c").
Proof.
  exact (extract_text_from_content_app sample_str
    [VStr "a"; dict [("type", VStr "image")]]
    [dict [("text", VStr "b")]; VStr "c"]
    "a" ("b" +:+ NL +:+ "c") eq_refl eq_refl).
Defined.

Lemma tool_name_pattern_witness :
  kebab ("asset-cli" +:+ NL)
  ∨ ∃ t, "asset-cli" +:+ NL = t +:+ NL ∧ kebab t.
Proof.
  exact (proj1 (tool_name_pattern ("asset-cli" +:+ NL)) eq_refl).
Defined.

Lemma validate_and_derive_all_valid_witness :
  kebab "asset-cli" ∧
  ∃ c rest, "asset-cli" = String c rest ∧ is_lower c = true.
Proof.
  exact (proj1 (validate_and_derive_all_valid "asset-cli") eq_refl).
Defined.

Lemma module_name_derived_witness :
  ∃ module_name,
    field "module_name" (validate_and_derive "assetcli")
    = Some (VStr module_name) ∧
    module_name = "assetcli".
Proof.
  destruct (module_name_derived "assetcli")
    as (module_name & Hfield & _ & _ & Hsame).
  exists module_name. split; [exact Hfield|]. apply Hsame. reflexivity.
Defined.

Lemma main_validate_agrees_witness :
  main_validate "asset-cli" = Returns ∧
  main_validate "Asset"
  = SystemExit
      "Invalid tool name. Use kebab-case, letters/numbers only, e.g. asset-cli." ∧
  main_validate "9lives"
  = SystemExit
      "Invalid module name. Use snake_case, letters/numbers/underscore, and start with a letter or underscore." ∧
  main_validate ("asset-cli" +:+ NL)
  = SystemExit
      "Invalid skill name. Use kebab-case, letters/numbers only, e.g. asset-cli-skill.".
Proof.
  split; [|split; [|split]].
  - apply (proj2 (proj1 (main_validate_agrees "asset-cli"))). reflexivity.
  - apply (proj1 (proj2 (main_validate_agrees "Asset"))). reflexivity.
  - apply (proj1 (proj2 (proj2 (main_validate_agrees "9lives"))));
      reflexivity.
  - apply (proj2 (proj2 (proj2 (main_validate_agrees ("asset-cli" +:+ NL)))));
      reflexivity.
Defined.
